(** * logind-util: session arbitration over logind and the kernel VT

    A shallow embedding of [src/logind-util.c].  The C functions become
    computations in a small state-and-trace monad: the mutable
    [struct weston_logind], [errno] and the bus connection are threaded as
    state, every call into libc, libdbus or the compositor is recorded in a
    chronological trace, and the answers of those external calls are read from
    an [environment] record, so that each theorem quantifies over every way
    the kernel and the bus library may answer. *)

From Stdlib Require Import ZArith List String Bool Lia DecimalString.
Import ListNotations.
Local Open Scope string_scope.
Local Open Scope list_scope.
Local Open Scope Z_scope.
Set Warnings "-register-all".

(** ** Constants of the unit and of the Linux headers it includes *)

Definition DRM_MAJOR : Z := 226.
Definition KDSKBMUTE : Z := 0x4B51.

(* <linux/major.h>, <linux/kd.h>, <linux/vt.h>, <fcntl.h>, <errno.h>,
   <sys/stat.h>, <sys/signalfd.h> *)
Definition TTY_MAJOR : Z := 4.
Definition KDSETMODE : Z := 0x4B3A.
Definition KD_TEXT : Z := 0.
Definition KD_GRAPHICS : Z := 1.
Definition KDGKBMODE : Z := 0x4B44.
Definition KDSKBMODE : Z := 0x4B45.
Definition K_UNICODE : Z := 3.
Definition K_OFF : Z := 4.
Definition VT_SETMODE : Z := 0x5602.
Definition VT_RELDISP : Z := 0x5605.
Definition VT_ACTIVATE : Z := 0x5606.
Definition VT_AUTO : Z := 0.
Definition VT_PROCESS : Z := 1.
Definition VT_ACKACQ : Z := 2.
Definition O_RDWR : Z := 2.
Definition O_NONBLOCK : Z := 2048.
Definition O_CLOEXEC : Z := 524288.
Definition SFD_NONBLOCK : Z := 2048.
Definition SFD_CLOEXEC : Z := 524288.
Definition ENOMEM : Z := 12.
Definition EIO : Z := 5.
Definition ENODEV : Z := 19.
Definition EINVAL : Z := 22.
Definition S_IFMT : Z := 61440.
Definition S_IFCHR : Z := 8192.
Definition sizeof_signalfd_siginfo : Z := 128.

(** [unsigned int] conversion: values wrap modulo 2^32. *)
Definition to_uint (x : Z) : Z := x mod 2 ^ 32.

(** ** File status and device numbers *)

Record struct_stat := { st_mode : Z; st_rdev : Z }.

Definition S_ISCHR (mode : Z) : bool := Z.land mode S_IFMT =? S_IFCHR.

(* major() and minor() of <sys/sysmacros.h> on a 64-bit dev_t *)
Definition major (dev : Z) : Z :=
  Z.lor (Z.shiftr (Z.land dev 0x00000000000fff00) 8)
        (Z.shiftr (Z.land dev 0xfffff00000000000) 32).

Definition minor (dev : Z) : Z :=
  Z.lor (Z.land dev 0x00000000000000ff)
        (Z.shiftr (Z.land dev 0x00000ffffff00000) 12).

(** ** Bus messages *)

Inductive dbus_type :=
| DBUS_TYPE_INVALID
| DBUS_TYPE_STRING
| DBUS_TYPE_OBJECT_PATH
| DBUS_TYPE_UINT32
| DBUS_TYPE_BOOLEAN
| DBUS_TYPE_UNIX_FD
| DBUS_TYPE_VARIANT
| DBUS_TYPE_ARRAY
| DBUS_TYPE_DICT_ENTRY.

Inductive dbus_value :=
| DString (s : string)
| DObjectPath (s : string)
| DUInt32 (n : Z)
| DBoolean (b : bool)
| DUnixFd (fd : Z)
| DVariant (v : dbus_value)
| DArray (elems : list dbus_value)
| DDictEntry (key value : dbus_value).

Inductive dbus_message_type :=
| DBUS_MESSAGE_TYPE_METHOD_CALL
| DBUS_MESSAGE_TYPE_METHOD_RETURN
| DBUS_MESSAGE_TYPE_ERROR
| DBUS_MESSAGE_TYPE_SIGNAL.

Record DBusMessage := {
  m_type : dbus_message_type;
  m_destination : string;
  m_path : string;
  m_interface : string;
  m_member : string;
  m_args : list dbus_value
}.

Definition dbus_type_eqb (a b : dbus_type) : bool :=
  match a, b with
  | DBUS_TYPE_INVALID, DBUS_TYPE_INVALID
  | DBUS_TYPE_STRING, DBUS_TYPE_STRING
  | DBUS_TYPE_OBJECT_PATH, DBUS_TYPE_OBJECT_PATH
  | DBUS_TYPE_UINT32, DBUS_TYPE_UINT32
  | DBUS_TYPE_BOOLEAN, DBUS_TYPE_BOOLEAN
  | DBUS_TYPE_UNIX_FD, DBUS_TYPE_UNIX_FD
  | DBUS_TYPE_VARIANT, DBUS_TYPE_VARIANT
  | DBUS_TYPE_ARRAY, DBUS_TYPE_ARRAY
  | DBUS_TYPE_DICT_ENTRY, DBUS_TYPE_DICT_ENTRY => true
  | _, _ => false
  end.

Definition type_of (v : dbus_value) : dbus_type :=
  match v with
  | DString _ => DBUS_TYPE_STRING
  | DObjectPath _ => DBUS_TYPE_OBJECT_PATH
  | DUInt32 _ => DBUS_TYPE_UINT32
  | DBoolean _ => DBUS_TYPE_BOOLEAN
  | DUnixFd _ => DBUS_TYPE_UNIX_FD
  | DVariant _ => DBUS_TYPE_VARIANT
  | DArray _ => DBUS_TYPE_ARRAY
  | DDictEntry _ _ => DBUS_TYPE_DICT_ENTRY
  end.

(** A [DBusMessageIter] is the list of the fields that remain, the current
    one first; past the last field the current type is DBUS_TYPE_INVALID. *)
Definition DBusMessageIter := list dbus_value.

Definition dbus_message_iter_get_arg_type (iter : DBusMessageIter)
  : dbus_type :=
  match iter with
  | [] => DBUS_TYPE_INVALID
  | v :: _ => type_of v
  end.

(* moves to the next field; FALSE when there is none after the current one *)
Definition dbus_message_iter_next (iter : DBusMessageIter)
  : bool * DBusMessageIter :=
  match iter with
  | [] => (false, [])
  | _ :: rest => (negb (match rest with [] => true | _ => false end), rest)
  end.

(* the iterator over the contents of the current container *)
Definition dbus_message_iter_recurse (iter : DBusMessageIter)
  : DBusMessageIter :=
  match iter with
  | DVariant v :: _ => [v]
  | DArray elems :: _ => elems
  | DDictEntry k v :: _ => [k; v]
  | _ => []
  end.

(* FALSE when the message has no arguments *)
Definition dbus_message_iter_init (m : DBusMessage) : bool * DBusMessageIter :=
  (negb (match m_args m with [] => true | _ => false end), m_args m).

(** [dbus_message_get_args]: the leading arguments of the message must have
    the requested types, in order; arguments after them are not looked at. *)
Fixpoint dbus_message_get_args (args : list dbus_value) (types : list dbus_type)
  {struct types} : option (list dbus_value) :=
  match types with
  | [] => Some []
  | t :: types' =>
      match args with
      | [] => None
      | v :: args' =>
          if dbus_type_eqb (type_of v) t
          then option_map (cons v) (dbus_message_get_args args' types')
          else None
      end
  end.

Definition dbus_message_is_signal (m : DBusMessage) (iface member : string)
  : bool :=
  match m_type m with
  | DBUS_MESSAGE_TYPE_SIGNAL =>
      String.eqb (m_interface m) iface && String.eqb (m_member m) member
  | _ => false
  end.

Definition DBUS_INTERFACE_LOCAL : string := "org.freedesktop.DBus.Local".

(** ** The session object and the world around it *)

(** Modelled from the spec: [struct weston_compositor] is declared in
    compositor.h, outside this unit.  The unit touches two of its members:
    the flag [session_active], "a single boolean, session is foreground",
    and the signal [session_signal], whose emissions are recorded in the
    trace as [ev_session_signal] with the compositor they are emitted with. *)
Record weston_compositor := { session_active : bool }.

(** [struct weston_logind].  The connection [dbus] is kept in the [world]
    next to it; descriptors are integers, the event source is a handle and
    the pending call is the handle libdbus gave for it, if any. *)

Record weston_logind := {
  compositor : weston_compositor;
  sync_drm : bool;
  seat : string;
  sid : string;
  vtnr : Z;
  vt : Z;
  kb_mode : Z;
  sfd : Z;
  sfd_source : option Z;
  spath : string;
  pending_active : option nat
}.

(** The third argument of an ioctl: an integer, the address of
    [wl->kb_mode] to be filled in, or a [struct vt_mode]. *)
Inductive ioctl_arg :=
| arg_int (n : Z)
| arg_kb_mode_ptr
| arg_vt_mode (mode relsig acqsig : Z).

(** Every call that leaves the unit, in the order it is made. *)
Inductive event :=
| ev_stat (path : string)
| ev_fstat (fd : Z)
| ev_open (path : string) (flags : Z)
| ev_close (fd : Z)
| ev_fcntl_getfl (fd : Z)
| ev_fcntl_setfl (fd fl : Z)
| ev_ioctl (fd req : Z) (arg : ioctl_arg)
| ev_read (fd : Z)
| ev_sigprocmask_block (sigs : list Z)
| ev_signalfd (sigs : list Z) (flags : Z)
| ev_exit (code : Z)
| ev_event_loop_add_fd (fd : Z)
| ev_event_source_remove (source : option Z)
| ev_log (msg : string)
| ev_session_signal (c : weston_compositor)
| ev_message_new (member : string)
| ev_message_append (m : DBusMessage) (args : list dbus_value)
| ev_message_unref (m : DBusMessage)
| ev_send (m : DBusMessage)
| ev_send_with_reply_and_block (m : DBusMessage)
| ev_send_with_reply (m : DBusMessage)
| ev_pending_set_notify (p : nat)
| ev_pending_cancel (p : nat)
| ev_pending_unref (p : option nat)
| ev_pending_steal_reply (p : nat).

(** The bus connection as libdbus keeps it: the handle the next pending call
    will get, and the pending calls still waiting for their reply. *)
Record DBusConnection := {
  next_pending : nat;
  outstanding : list nat
}.

(** Everything a function of the unit can read or change: the session
    object, [errno], the connection, whether the process has exited, and
    the calls made so far, oldest first. *)
Record world := {
  wl : weston_logind;
  errno : Z;
  dbus : DBusConnection;
  halted : bool;
  trace : list event
}.

(** What the outside answers.  A system call answers with its return value
    and the [errno] it leaves when that value is negative. *)
Record sysret := { rv : Z; rerrno : Z }.

(** The answers, call by call: [stat], [fstat], [open], [fcntl], [ioctl]
    and the keyboard mode KDGKBMODE stores; the bytes read from the signal
    descriptor and the signal number they carry; [signalfd]; the run-time
    values of SIGRTMIN and SIGRTMAX; the event source (or NULL) and [errno]
    of [wl_event_loop_add_fd]; whether libdbus can allocate a method call of
    a given member and append arguments to a message; the reply of a
    blocking call (or NULL); whether a call with reply is queued; whether
    the notify function is set; and the reply stolen from a pending call. *)
Record environment := {
  env_stat : string -> sysret * struct_stat;
  env_fstat : Z -> sysret * struct_stat;
  env_open : string -> Z -> sysret;
  env_fcntl_getfl : Z -> sysret;
  env_fcntl_setfl : Z -> Z -> sysret;
  env_ioctl : Z -> Z -> ioctl_arg -> sysret;
  env_kb_mode : Z -> Z;
  env_read_signalfd : Z -> Z * Z;
  env_signalfd : sysret;
  env_SIGRTMIN : Z;
  env_SIGRTMAX : Z;
  env_add_fd : Z -> option Z * Z;
  env_message_new : string -> bool;
  env_append_args : DBusMessage -> list dbus_value -> bool;
  env_call_reply : DBusMessage -> option DBusMessage;
  env_send_with_reply : DBusMessage -> bool;
  env_set_notify : nat -> bool;
  env_steal_reply : nat -> option DBusMessage
}.

(** ** The monad: state passing over [world] *)

Definition M (A : Type) : Type := world -> A * world.

Definition pure {A} (a : A) : M A := fun w => (a, w).

Definition bind {A B} (c : M A) (k : A -> M B) : M B :=
  fun w => let (a, w') := c w in k a w'.

Notation "x <- c1 ;; c2" := (bind c1 (fun x => c2))
  (at level 61, c1 at next level, right associativity).
Notation "' p <- c1 ;; c2" := (bind c1 (fun p => c2))
  (at level 61, p pattern, c1 at next level, right associativity).
Notation "c1 ;; c2" := (bind c1 (fun _ => c2))
  (at level 61, right associativity).

Definition with_trace (w : world) (e : event) : world :=
  {| wl := wl w; errno := errno w; dbus := dbus w; halted := halted w;
     trace := trace w ++ [e] |}.

Definition emit (e : event) : M unit := fun w => (tt, with_trace w e).

Definition get_wl : M weston_logind := fun w => (wl w, w).

Definition put_wl (x : weston_logind) : M unit :=
  fun w => (tt, {| wl := x; errno := errno w; dbus := dbus w;
                   halted := halted w; trace := trace w |}).

Definition get_errno : M Z := fun w => (errno w, w).

Definition set_errno (e : Z) : M unit :=
  fun w => (tt, {| wl := wl w; errno := e; dbus := dbus w;
                   halted := halted w; trace := trace w |}).

Definition get_dbus : M DBusConnection := fun w => (dbus w, w).

Definition put_dbus (c : DBusConnection) : M unit :=
  fun w => (tt, {| wl := wl w; errno := errno w; dbus := c;
                   halted := halted w; trace := trace w |}).

(** A system call: logged, answered by the environment, and [errno] is
    overwritten when the answer is negative. *)
Definition syscall (e : event) (r : sysret) : M Z :=
  fun w => (rv r,
            {| wl := wl w;
               errno := if rv r <? 0 then rerrno r else errno w;
               dbus := dbus w; halted := halted w;
               trace := trace w ++ [e] |}).

Definition exit (code : Z) : M unit :=
  emit (ev_exit code);;
  fun w => (tt, {| wl := wl w; errno := errno w; dbus := dbus w;
                   halted := true; trace := trace w |}).

(** Field updates of [struct weston_logind]. *)
Definition set_session_active (x : weston_logind) (b : bool) : weston_logind :=
  {| compositor := {| session_active := b |}; sync_drm := sync_drm x;
     seat := seat x; sid := sid x; vtnr := vtnr x; vt := vt x;
     kb_mode := kb_mode x; sfd := sfd x; sfd_source := sfd_source x;
     spath := spath x; pending_active := pending_active x |}.

Definition set_vt (x : weston_logind) (fd : Z) : weston_logind :=
  {| compositor := compositor x; sync_drm := sync_drm x;
     seat := seat x; sid := sid x; vtnr := vtnr x; vt := fd;
     kb_mode := kb_mode x; sfd := sfd x; sfd_source := sfd_source x;
     spath := spath x; pending_active := pending_active x |}.

Definition set_kb_mode (x : weston_logind) (k : Z) : weston_logind :=
  {| compositor := compositor x; sync_drm := sync_drm x;
     seat := seat x; sid := sid x; vtnr := vtnr x; vt := vt x;
     kb_mode := k; sfd := sfd x; sfd_source := sfd_source x;
     spath := spath x; pending_active := pending_active x |}.

Definition set_sfd (x : weston_logind) (fd : Z) : weston_logind :=
  {| compositor := compositor x; sync_drm := sync_drm x;
     seat := seat x; sid := sid x; vtnr := vtnr x; vt := vt x;
     kb_mode := kb_mode x; sfd := fd; sfd_source := sfd_source x;
     spath := spath x; pending_active := pending_active x |}.

Definition set_sfd_source (x : weston_logind) (s : option Z) : weston_logind :=
  {| compositor := compositor x; sync_drm := sync_drm x;
     seat := seat x; sid := sid x; vtnr := vtnr x; vt := vt x;
     kb_mode := kb_mode x; sfd := sfd x; sfd_source := s;
     spath := spath x; pending_active := pending_active x |}.

Definition set_pending_active (x : weston_logind) (p : option nat)
  : weston_logind :=
  {| compositor := compositor x; sync_drm := sync_drm x;
     seat := seat x; sid := sid x; vtnr := vtnr x; vt := vt x;
     kb_mode := kb_mode x; sfd := sfd x; sfd_source := sfd_source x;
     spath := spath x; pending_active := p |}.

(** ** The unit, function by function *)

Section LogindUtil.

Variable env : environment.

(** *** libc, libdbus and event-loop calls *)

Definition stat (path : string) : M (Z * struct_stat) :=
  r <- syscall (ev_stat path) (fst (env_stat env path));;
  pure (r, snd (env_stat env path)).

Definition fstat (fd : Z) : M (Z * struct_stat) :=
  r <- syscall (ev_fstat fd) (fst (env_fstat env fd));;
  pure (r, snd (env_fstat env fd)).

Definition open (path : string) (flags : Z) : M Z :=
  syscall (ev_open path flags) (env_open env path flags).

Definition close (fd : Z) : M unit :=
  emit (ev_close fd).

Definition fcntl_getfl (fd : Z) : M Z :=
  syscall (ev_fcntl_getfl fd) (env_fcntl_getfl env fd).

Definition fcntl_setfl (fd fl : Z) : M Z :=
  syscall (ev_fcntl_setfl fd fl) (env_fcntl_setfl env fd fl).

Definition ioctl (fd req : Z) (arg : ioctl_arg) : M Z :=
  syscall (ev_ioctl fd req arg) (env_ioctl env fd req arg).

Definition dbus_message_new_method_call (dest path iface member : string)
  : M (option DBusMessage) :=
  emit (ev_message_new member);;
  pure (if env_message_new env member
        then Some {| m_type := DBUS_MESSAGE_TYPE_METHOD_CALL;
                     m_destination := dest; m_path := path;
                     m_interface := iface; m_member := member;
                     m_args := [] |}
        else None).

Definition dbus_message_append_args (m : DBusMessage) (args : list dbus_value)
  : M (bool * DBusMessage) :=
  emit (ev_message_append m args);;
  pure (if env_append_args env m args
        then (true, {| m_type := m_type m; m_destination := m_destination m;
                       m_path := m_path m; m_interface := m_interface m;
                       m_member := m_member m; m_args := m_args m ++ args |})
        else (false, m)).

Definition dbus_message_unref (m : DBusMessage) : M unit :=
  emit (ev_message_unref m).

Definition dbus_connection_send (m : DBusMessage) : M unit :=
  emit (ev_send m).

Definition dbus_connection_send_with_reply_and_block (m : DBusMessage)
  : M (option DBusMessage) :=
  emit (ev_send_with_reply_and_block m);;
  pure (env_call_reply env m).

(* on success the connection hands out a new pending call and waits for
   its reply *)
Definition dbus_connection_send_with_reply (m : DBusMessage) : M (option nat) :=
  emit (ev_send_with_reply m);;
  if env_send_with_reply env m then
    c <- get_dbus;;
    put_dbus {| next_pending := S (next_pending c);
                outstanding := outstanding c ++ [next_pending c] |};;
    pure (Some (next_pending c))
  else pure None.

Definition dbus_pending_call_set_notify (p : nat) : M bool :=
  emit (ev_pending_set_notify p);;
  pure (env_set_notify env p).

(* a cancelled call is no longer waited for *)
Definition dbus_pending_call_cancel (p : nat) : M unit :=
  emit (ev_pending_cancel p);;
  c <- get_dbus;;
  put_dbus {| next_pending := next_pending c;
              outstanding := filter (fun q => negb (Nat.eqb q p))
                               (outstanding c) |}.

Definition dbus_pending_call_unref (p : option nat) : M unit :=
  emit (ev_pending_unref p).

Definition dbus_pending_call_steal_reply (p : nat) : M (option DBusMessage) :=
  emit (ev_pending_steal_reply p);;
  pure (env_steal_reply env p).

Definition weston_log (msg : string) : M unit :=
  emit (ev_log msg).

(** *** Device arbiter *)

Definition weston_logind_take_device (major minor : Z) (paused_out : bool)
  : M (Z * option bool) :=
  wl <- get_wl;;
  m <- dbus_message_new_method_call "org.freedesktop.login1" (spath wl)
         "org.freedesktop.login1.Session" "TakeDevice";;
  match m with
  | None => pure (- ENOMEM, None)
  | Some m =>
      '(b, m) <- dbus_message_append_args m [DUInt32 major; DUInt32 minor];;
      if negb b then
        dbus_message_unref m;; pure (- ENOMEM, None)
      else
        reply <- dbus_connection_send_with_reply_and_block m;;
        match reply with
        | None => dbus_message_unref m;; pure (- ENODEV, None)
        | Some reply =>
            match dbus_message_get_args (m_args reply)
                    [DBUS_TYPE_UNIX_FD; DBUS_TYPE_BOOLEAN] with
            | Some [DUnixFd fd; DBoolean paused] =>
                dbus_message_unref reply;;
                dbus_message_unref m;;
                pure (fd, if paused_out then Some paused else None)
            | _ =>
                dbus_message_unref reply;;
                dbus_message_unref m;;
                pure (- ENODEV, None)
            end
        end
  end.

Definition weston_logind_release_device (major minor : Z) : M unit :=
  wl <- get_wl;;
  m <- dbus_message_new_method_call "org.freedesktop.login1" (spath wl)
         "org.freedesktop.login1.Session" "ReleaseDevice";;
  match m with
  | None => pure tt
  | Some m =>
      '(b, m) <- dbus_message_append_args m [DUInt32 major; DUInt32 minor];;
      (if b then dbus_connection_send m else pure tt);;
      dbus_message_unref m
  end.

Definition weston_logind_pause_device_complete (major minor : Z) : M unit :=
  wl <- get_wl;;
  m <- dbus_message_new_method_call "org.freedesktop.login1" (spath wl)
         "org.freedesktop.login1.Session" "PauseDeviceComplete";;
  match m with
  | None => pure tt
  | Some m =>
      '(b, m) <- dbus_message_append_args m [DUInt32 major; DUInt32 minor];;
      (if b then dbus_connection_send m else pure tt);;
      dbus_message_unref m
  end.

Definition weston_logind_open (path : string) (flags : Z) : M Z :=
  '(r, st) <- stat path;;
  if r <? 0 then pure (-1)
  else if negb (S_ISCHR (st_mode st)) then
    set_errno ENODEV;; pure (-1)
  else
    '(fd, _) <- weston_logind_take_device (major (st_rdev st))
                  (minor (st_rdev st)) false;;
    if fd <? 0 then pure fd
    else
      let err_close (r : Z) : M Z :=
        close fd;;
        weston_logind_release_device (major (st_rdev st)) (minor (st_rdev st));;
        set_errno (- r);;
        pure (-1) in
      fl <- fcntl_getfl fd;;
      if fl <? 0 then
        e <- get_errno;; err_close (- e)
      else
        let fl := if Z.land flags O_NONBLOCK =? 0 then fl
                  else Z.lor fl O_NONBLOCK in
        r <- fcntl_setfl fd fl;;
        if r <? 0 then
          e <- get_errno;; err_close (- e)
        else pure fd.

Definition weston_logind_close (fd : Z) : M unit :=
  '(r, st) <- fstat fd;;
  if r <? 0 then
    weston_log "logind: cannot fstat fd: %m"
  else if negb (S_ISCHR (st_mode st)) then
    weston_log "logind: invalid device passed"
  else
    weston_logind_release_device (major (st_rdev st)) (minor (st_rdev st)).

Definition weston_logind_restore : M unit :=
  wl <- get_wl;;
  ioctl (vt wl) KDSETMODE (arg_int KD_TEXT);;
  ioctl (vt wl) KDSKBMUTE (arg_int 0);;
  ioctl (vt wl) KDSKBMODE (arg_int (kb_mode wl));;
  ioctl (vt wl) VT_SETMODE (arg_vt_mode VT_AUTO 0 0);;
  pure tt.

Definition weston_logind_activate_vt (n : Z) : M Z :=
  wl <- get_wl;;
  r <- ioctl (vt wl) VT_ACTIVATE (arg_int n);;
  if r <? 0 then pure (-1) else pure 0.

(** *** Active flag *)

Definition weston_logind_set_active (active : bool) : M unit :=
  wl <- get_wl;;
  if Bool.eqb (negb (session_active (compositor wl))) (negb active) then
    pure tt
  else
    put_wl (set_session_active wl active);;
    emit (ev_session_signal {| session_active := active |}).

Definition dbus_message_iter_get_basic_bool (iter : DBusMessageIter) : bool :=
  match iter with
  | DBoolean b :: _ => b
  | _ => false
  end.

Definition dbus_message_iter_get_basic_string (iter : DBusMessageIter)
  : string :=
  match iter with
  | DString s :: _ => s
  | DObjectPath s :: _ => s
  | _ => ""
  end.

Definition parse_active (iter : DBusMessageIter) : M unit :=
  if negb (dbus_type_eqb (dbus_message_iter_get_arg_type iter)
             DBUS_TYPE_VARIANT)
  then pure tt
  else
    let sub := dbus_message_iter_recurse iter in
    if negb (dbus_type_eqb (dbus_message_iter_get_arg_type sub)
               DBUS_TYPE_BOOLEAN)
    then pure tt
    else
      let b := dbus_message_iter_get_basic_bool sub in
      wl <- get_wl;;
      if negb (sync_drm wl) || negb b then weston_logind_set_active b
      else pure tt.

Definition get_active_cb (pending : nat) : M unit :=
  wl <- get_wl;;
  dbus_pending_call_unref (pending_active wl);;
  put_wl (set_pending_active wl None);;
  m <- dbus_pending_call_steal_reply pending;;
  match m with
  | None => pure tt
  | Some m =>
      (match m_type m with
       | DBUS_MESSAGE_TYPE_METHOD_RETURN =>
           let (ok, iter) := dbus_message_iter_init m in
           if ok then parse_active iter else pure tt
       | _ => pure tt
       end);;
      dbus_message_unref m
  end.

Definition weston_logind_get_active : M unit :=
  wl <- get_wl;;
  m <- dbus_message_new_method_call "org.freedesktop.login1" (spath wl)
         "org.freedesktop.DBus.Properties" "Get";;
  match m with
  | None => pure tt
  | Some m =>
      '(b, m) <- dbus_message_append_args m
                   [DString "org.freedesktop.login1.Session";
                    DString "Active"];;
      if negb b then dbus_message_unref m
      else
        pending <- dbus_connection_send_with_reply m;;
        match pending with
        | None => dbus_message_unref m
        | Some pending =>
            b <- dbus_pending_call_set_notify pending;;
            if negb b then
              dbus_pending_call_cancel pending;;
              dbus_pending_call_unref (Some pending);;
              dbus_message_unref m
            else
              (match pending_active wl with
               | Some old =>
                   dbus_pending_call_cancel old;;
                   dbus_pending_call_unref (Some old)
               | None => pure tt
               end);;
              wl <- get_wl;;
              put_wl (set_pending_active wl (Some pending))
        end
  end.

(** *** Bus signals *)

Definition disconnected_dbus : M unit :=
  weston_log "logind: dbus connection lost, exiting..";;
  weston_logind_restore;;
  exit (-1).

Definition session_removed (m : DBusMessage) : M unit :=
  match dbus_message_get_args (m_args m)
          [DBUS_TYPE_STRING; DBUS_TYPE_OBJECT_PATH] with
  | Some [DString name; DObjectPath obj] =>
      wl <- get_wl;;
      if String.eqb name (sid wl) then
        weston_log "logind: our session got closed, exiting..";;
        weston_logind_restore;;
        exit (-1)
      else pure tt
  | _ => weston_log "logind: cannot parse SessionRemoved dbus signal"
  end.

(** How a scan of [property_changed] over one of the two arrays ends: the
    array is exhausted, the function returned from inside the loop, or it
    jumped to its [error] label. *)
Inductive loop_exit := loop_done | loop_return | loop_error.

(* the loop over the changed-properties dictionary *)
Fixpoint property_changed_entries (sub : DBusMessageIter) : M loop_exit :=
  match sub with
  | [] => pure loop_done
  | v :: rest =>
      if dbus_type_eqb (type_of v) DBUS_TYPE_DICT_ENTRY then
        let entry := dbus_message_iter_recurse (v :: rest) in
        if negb (dbus_type_eqb (dbus_message_iter_get_arg_type entry)
                   DBUS_TYPE_STRING)
        then pure loop_error
        else
          let name := dbus_message_iter_get_basic_string entry in
          let (ok, entry) := dbus_message_iter_next entry in
          if negb ok then pure loop_error
          else if String.eqb name "Active" then
            parse_active entry;; pure loop_return
          else property_changed_entries rest
      else pure loop_done
  end.

(* the loop over the invalidated-properties names *)
Fixpoint property_changed_invalidated (sub : DBusMessageIter) : M unit :=
  match sub with
  | [] => pure tt
  | v :: rest =>
      if dbus_type_eqb (type_of v) DBUS_TYPE_STRING then
        if String.eqb (dbus_message_iter_get_basic_string (v :: rest)) "Active"
        then weston_logind_get_active
        else property_changed_invalidated rest
      else pure tt
  end.

Definition property_changed (m : DBusMessage) : M unit :=
  let error :=
    weston_log "logind: cannot parse PropertiesChanged dbus signal" in
  let (ok, iter) := dbus_message_iter_init m in
  if negb ok
     || negb (dbus_type_eqb (dbus_message_iter_get_arg_type iter)
                DBUS_TYPE_STRING)
  then error
  else
    let (ok, iter) := dbus_message_iter_next iter in
    if negb ok
       || negb (dbus_type_eqb (dbus_message_iter_get_arg_type iter)
                  DBUS_TYPE_ARRAY)
    then error
    else
      x <- property_changed_entries (dbus_message_iter_recurse iter);;
      match x with
      | loop_error => error
      | loop_return => pure tt
      | loop_done =>
          let (ok, iter) := dbus_message_iter_next iter in
          if negb ok
             || negb (dbus_type_eqb (dbus_message_iter_get_arg_type iter)
                        DBUS_TYPE_ARRAY)
          then error
          else property_changed_invalidated (dbus_message_iter_recurse iter)
      end.

Definition device_paused (m : DBusMessage) : M unit :=
  match dbus_message_get_args (m_args m)
          [DBUS_TYPE_UINT32; DBUS_TYPE_UINT32; DBUS_TYPE_STRING] with
  | Some [DUInt32 major; DUInt32 minor; DString type] =>
      (if String.eqb type "pause"
       then weston_logind_pause_device_complete major minor
       else pure tt);;
      wl <- get_wl;;
      if sync_drm wl && (major =? DRM_MAJOR)
      then weston_logind_set_active false
      else pure tt
  | _ => weston_log "logind: cannot parse PauseDevice dbus signal"
  end.

Definition device_resumed (m : DBusMessage) : M unit :=
  match dbus_message_get_args (m_args m) [DBUS_TYPE_UINT32] with
  | Some [DUInt32 major] =>
      wl <- get_wl;;
      if sync_drm wl && (major =? DRM_MAJOR)
      then weston_logind_set_active true
      else pure tt
  | _ => weston_log "logind: cannot parse ResumeDevice dbus signal"
  end.

Definition filter_dbus (m : DBusMessage) : M unit :=
  if dbus_message_is_signal m DBUS_INTERFACE_LOCAL "Disconnected" then
    disconnected_dbus
  else if dbus_message_is_signal m "org.freedesktop.login1.Manager"
            "SessionRemoved" then
    session_removed m
  else if dbus_message_is_signal m "org.freedesktop.DBus.Properties"
            "PropertiesChanged" then
    property_changed m
  else if dbus_message_is_signal m "org.freedesktop.login1.Session"
            "PauseDevice" then
    device_paused m
  else if dbus_message_is_signal m "org.freedesktop.login1.Session"
            "ResumeDevice" then
    device_resumed m
  else pure tt.

(** *** VT switch coordinator *)

Definition signal_event (fd : Z) : M Z :=
  emit (ev_read fd);;
  let (n, ssi_signo) := env_read_signalfd env fd in
  if negb (n =? sizeof_signalfd_siginfo) then
    weston_log "logind: cannot read signalfd: %m";;
    pure 0
  else
    wl <- get_wl;;
    (if ssi_signo =? to_uint (env_SIGRTMIN env) then
       ioctl (vt wl) VT_RELDISP (arg_int 1);; pure tt
     else if ssi_signo =? to_uint (to_uint (env_SIGRTMIN env) + 1) then
       ioctl (vt wl) VT_RELDISP (arg_int VT_ACKACQ);; pure tt
     else pure tt);;
    pure 0.

Definition tty_path (vtnr : Z) : string :=
  String.append "/dev/tty" (NilZero.string_of_uint (N.to_uint (Z.to_N vtnr))).

Definition weston_logind_setup_vt : M Z :=
  wl0 <- get_wl;;
  let buf := tty_path (vtnr wl0) in
  fd <- open buf (Z.lor (Z.lor O_RDWR O_CLOEXEC) O_NONBLOCK);;
  put_wl (set_vt wl0 fd);;
  if fd <? 0 then
    e <- get_errno;;
    weston_log "logind: cannot open VT %s: %m";;
    pure (- e)
  else
    (* the unwinding labels, innermost last *)
    let err_close (r : Z) : M Z :=
      close fd;; pure r in
    let err_kbmode (r : Z) : M Z :=
      wl <- get_wl;;
      ioctl fd KDSKBMUTE (arg_int 0);;
      ioctl fd KDSKBMODE (arg_int (kb_mode wl));;
      err_close r in
    let err_mode (r : Z) : M Z :=
      ioctl fd KDSETMODE (arg_int KD_TEXT);;
      err_kbmode r in
    let err_sfd (r : Z) : M Z :=
      wl <- get_wl;;
      close (sfd wl);;
      err_mode r in
    let err_sfd_source (r : Z) : M Z :=
      wl <- get_wl;;
      emit (ev_event_source_remove (sfd_source wl));;
      err_sfd r in
    '(r, st) <- fstat fd;;
    if (r =? -1) || negb (major (st_rdev st) =? TTY_MAJOR)
       || (minor (st_rdev st) <=? 0) || (64 <=? minor (st_rdev st))
    then
      weston_log "logind: TTY %s is no virtual terminal";;
      err_close (- EINVAL)
    else
      r <- ioctl fd KDGKBMODE arg_kb_mode_ptr;;
      wl <- get_wl;;
      (if r <? 0 then
         weston_log "logind: cannot read keyboard mode on %s: %m";;
         put_wl (set_kb_mode wl K_UNICODE)
       else if env_kb_mode env fd =? K_OFF then
         put_wl (set_kb_mode wl K_UNICODE)
       else put_wl (set_kb_mode wl (env_kb_mode env fd)));;
      r1 <- ioctl fd KDSKBMUTE (arg_int 1);;
      r2 <- (if r1 <? 0 then ioctl fd KDSKBMODE (arg_int K_OFF) else pure 0);;
      if (r1 <? 0) && (r2 <? 0) then
        e <- get_errno;;
        weston_log "logind: cannot set K_OFF KB-mode on %s: %m";;
        err_close (- e)
      else
        r <- ioctl fd KDSETMODE (arg_int KD_GRAPHICS);;
        if r <? 0 then
          e <- get_errno;;
          weston_log "logind: cannot set KD_GRAPHICS mode on %s: %m";;
          err_kbmode (- e)
        else
          let SIGRTMIN := env_SIGRTMIN env in
          let SIGRTMAX := env_SIGRTMAX env in
          if SIGRTMIN + 1 >? SIGRTMAX then
            weston_log "logind: not enough RT signals available: %u-%u";;
            pure (- EINVAL)
          else
            let mask := [SIGRTMIN; SIGRTMIN + 1] in
            emit (ev_sigprocmask_block mask);;
            s <- syscall (ev_signalfd mask (Z.lor SFD_NONBLOCK SFD_CLOEXEC))
                   (env_signalfd env);;
            wl <- get_wl;;
            put_wl (set_sfd wl s);;
            if s <? 0 then
              e <- get_errno;;
              weston_log "logind: cannot create signalfd: %m";;
              err_mode (- e)
            else
              emit (ev_event_loop_add_fd s);;
              wl <- get_wl;;
              put_wl (set_sfd_source wl (fst (env_add_fd env s)));;
              match fst (env_add_fd env s) with
              | None =>
                  set_errno (snd (env_add_fd env s));;
                  e <- get_errno;;
                  weston_log "logind: cannot create signalfd source: %m";;
                  err_sfd (- e)
              | Some _ =>
                  r <- ioctl fd VT_SETMODE
                         (arg_vt_mode VT_PROCESS SIGRTMIN (SIGRTMIN + 1));;
                  if r <? 0 then
                    e <- get_errno;;
                    weston_log "logind: cannot take over VT: %m";;
                    err_sfd_source (- e)
                  else
                    weston_log "logind: using VT %s";;
                    pure 0
              end.

Definition weston_logind_destroy_vt : M unit :=
  weston_logind_restore;;
  wl <- get_wl;;
  emit (ev_event_source_remove (sfd_source wl));;
  close (sfd wl);;
  close (vt wl).

(** *** The event loop around the unit

    The three ways control enters the unit once it is connected: a bus
    message is handed to the filter, the reply of a pending call arrives, or
    the signal descriptor becomes readable.  libdbus runs the notify
    function of a pending call only while that call is waited for, and
    stops waiting for it when it does. *)
Inductive input :=
| bus_message (m : DBusMessage)
| bus_reply (p : nat)
| signal_readable.

Definition dispatch (i : input) : M unit :=
  match i with
  | bus_message m => filter_dbus m
  | bus_reply p =>
      c <- get_dbus;;
      if existsb (Nat.eqb p) (outstanding c) then
        put_dbus {| next_pending := next_pending c;
                    outstanding := filter (fun q => negb (Nat.eqb q p))
                                     (outstanding c) |};;
        get_active_cb p
      else pure tt
  | signal_readable =>
      wl <- get_wl;;
      signal_event (sfd wl);; pure tt
  end.

End LogindUtil.

(** A run of the event loop: every input comes with the answers the outside
    gives while it is handled; nothing runs after [exit]. *)
Fixpoint run_loop (inputs : list (environment * input)) (w : world) : world :=
  match inputs with
  | [] => w
  | (env, i) :: rest =>
      if halted w then w else run_loop rest (snd (dispatch env i w))
  end.

(** * Notions the properties are stated with *)

Definition active (w : world) : bool := session_active (compositor (wl w)).

Definition is_session_signal (e : event) : bool :=
  match e with ev_session_signal _ => true | _ => false end.

(** The change notifications the compositor has been sent. *)
Definition notifications (tr : list event) : nat :=
  List.length (filter is_session_signal tr).

(** A sequence of writes of the flag, one call per value. *)
Fixpoint write_active (vals : list bool) : M unit :=
  match vals with
  | [] => pure tt
  | v :: rest => weston_logind_set_active v;; write_active rest
  end.

(** The logical transitions in a sequence of writes that starts from [cur]:
    the writes whose value differs from the state they find. *)
Fixpoint transitions (cur : bool) (vals : list bool) : nat :=
  match vals with
  | [] => O
  | v :: rest => ((if Bool.eqb cur v then 0 else 1) + transitions v rest)%nat
  end.

(** The messages handed to [dbus_connection_send], oldest first. *)
Definition sent (tr : list event) : list DBusMessage :=
  flat_map (fun e => match e with ev_send m => [m] | _ => [] end) tr.

Definition is_ioctl (e : event) : bool :=
  match e with ev_ioctl _ _ _ => true | _ => false end.

Definition is_fcntl (e : event) : bool :=
  match e with
  | ev_fcntl_getfl _ | ev_fcntl_setfl _ _ => true
  | _ => false
  end.

(** Calls into the bus library. *)
Definition is_bus_event (e : event) : bool :=
  match e with
  | ev_message_new _ | ev_message_append _ _ | ev_message_unref _
  | ev_send _ | ev_send_with_reply_and_block _ | ev_send_with_reply _
  | ev_pending_set_notify _ | ev_pending_cancel _ | ev_pending_unref _
  | ev_pending_steal_reply _ => true
  | _ => false
  end.

(** A method call on the session object, as the unit addresses it. *)
Definition session_call (path member : string) (args : list dbus_value)
  : DBusMessage :=
  {| m_type := DBUS_MESSAGE_TYPE_METHOD_CALL;
     m_destination := "org.freedesktop.login1";
     m_path := path;
     m_interface := "org.freedesktop.login1.Session";
     m_member := member;
     m_args := args |}.

(** Whether the bus library manages to build the (major, minor) call
    [member]: the message is allocated and the two arguments are appended. *)
Definition builds (env : environment) (path member : string) (major minor : Z)
  : bool :=
  env_message_new env member
  && env_append_args env (session_call path member [])
       [DUInt32 major; DUInt32 minor].

(** The calls of a fire-and-forget (major, minor) method call. *)
Definition oneway_trace (env : environment) (path member : string)
  (major minor : Z) : list event :=
  ev_message_new member ::
  (if env_message_new env member then
     ev_message_append (session_call path member [])
       [DUInt32 major; DUInt32 minor] ::
     (if env_append_args env (session_call path member [])
           [DUInt32 major; DUInt32 minor]
      then [ev_send (session_call path member [DUInt32 major; DUInt32 minor]);
            ev_message_unref
              (session_call path member [DUInt32 major; DUInt32 minor])]
      else [ev_message_unref (session_call path member [])])
   else []).

(** The flags [weston_logind_open] passes to F_SETFL when the caller asked
    for [flags] and F_GETFL answered [fl]. *)
Definition adjusted_flags (flags fl : Z) : Z :=
  if Z.land flags O_NONBLOCK =? 0 then fl else Z.lor fl O_NONBLOCK.

(** The session-active value an iterator delivers to [parse_active]: the
    boolean inside the variant it points at, if that is what it points at. *)
Definition delivered (iter : DBusMessageIter) : option bool :=
  match iter with
  | DVariant (DBoolean b) :: _ => Some b
  | _ => None
  end.

(** A changed-properties entry for a property other than Active. *)
Definition other_property (v : dbus_value) : bool :=
  match v with
  | DDictEntry (DString name) _ => negb (String.eqb name "Active")
  | _ => false
  end.

(** A step that leaves the session object and the connection as they
    were. *)
Definition kept (w w' : world) : Prop := wl w' = wl w /\ dbus w' = dbus w.

(** The Active query as [weston_logind_get_active] builds it. *)
Definition active_query (path : string) (args : list dbus_value)
  : DBusMessage :=
  {| m_type := DBUS_MESSAGE_TYPE_METHOD_CALL;
     m_destination := "org.freedesktop.login1";
     m_path := path;
     m_interface := "org.freedesktop.DBus.Properties";
     m_member := "Get";
     m_args := args |}.

Definition query_args : list dbus_value :=
  [DString "org.freedesktop.login1.Session"; DString "Active"].

(** The query is built and handed to the connection. *)
Definition query_sent (env : environment) (w : world) : bool :=
  env_message_new env "Get"
  && env_append_args env (active_query (spath (wl w)) []) query_args
  && env_send_with_reply env (active_query (spath (wl w)) query_args).

(** The query is sent and its notify function is registered: the
    invocation registers a new pending call. *)
Definition query_registered (env : environment) (w : world) : bool :=
  query_sent env w && env_set_notify env (next_pending (dbus w)).

(** The pending calls of [l] once [p], if any, is cancelled. *)
Definition without (p : option nat) (l : list nat) : list nat :=
  match p with
  | Some q => filter (fun x => negb (Nat.eqb x q)) l
  | None => l
  end.

Definition slot (p : option nat) : list nat :=
  match p with Some q => [q] | None => [] end.

(** The pending calls the connection waits for are exactly the one the
    session object remembers, and handles are handed out in increasing
    order. *)
Definition consistent (w : world) : Prop :=
  outstanding (dbus w) = slot (pending_active (wl w))
  /\ forall p, In p (outstanding (dbus w)) -> (p < next_pending (dbus w))%nat.

(** The state a step leaves untouched, its trace apart. *)
Definition same_state (w w' : world) : Prop :=
  wl w' = wl w /\ errno w' = errno w
  /\ dbus w' = dbus w /\ halted w' = halted w.

(** *** VT setup: where it stands and what unwinding it owes *)

(** The calls that undo a setup that got as far as muting the keyboard
    ([muted]) and switching to graphics mode ([graphics]), in reverse order;
    [kb] is the keyboard mode saved at setup. *)
Definition unwinding (fd kb : Z) (graphics muted : bool) : list event :=
  (if graphics then [ev_ioctl fd KDSETMODE (arg_int KD_TEXT)] else [])
  ++ (if muted then [ev_ioctl fd KDSKBMUTE (arg_int 0);
                     ev_ioctl fd KDSKBMODE (arg_int kb)] else [])
  ++ [ev_close fd].

(** The flags the VT node is opened with. *)
Definition vt_flags : Z := Z.lor (Z.lor O_RDWR O_CLOEXEC) O_NONBLOCK.

(** The descriptor passes the virtual-console test of setup. *)
Definition is_console (env : environment) (fd : Z) : bool :=
  negb ((rv (fst (env_fstat env fd)) =? -1)
        || negb (major (st_rdev (snd (env_fstat env fd))) =? TTY_MAJOR)
        || (minor (st_rdev (snd (env_fstat env fd))) <=? 0)
        || (64 <=? minor (st_rdev (snd (env_fstat env fd))))).

(** Setup manages to mute the keyboard, by KDSKBMUTE or else by K_OFF. *)
Definition keyboard_muted (env : environment) (fd : Z) : bool :=
  negb ((rv (env_ioctl env fd KDSKBMUTE (arg_int 1)) <? 0)
        && (rv (env_ioctl env fd KDSKBMODE (arg_int K_OFF)) <? 0)).

(** Setup manages to switch the console to graphics mode. *)
Definition graphics_set (env : environment) (fd : Z) : bool :=
  negb (rv (env_ioctl env fd KDSETMODE (arg_int KD_GRAPHICS)) <? 0).

(** *** Concrete machines and sessions *)

Definition ok (r : Z) : sysret := {| rv := r; rerrno := 0 |}.
Definition failing (e : Z) : sysret := {| rv := -1; rerrno := e |}.

Definition makedev (major minor : Z) : Z := major * 256 + minor.

Definition method_return (args : list dbus_value) : DBusMessage :=
  {| m_type := DBUS_MESSAGE_TYPE_METHOD_RETURN;
     m_destination := ""; m_path := ""; m_interface := ""; m_member := "";
     m_args := args |}.

(** The status of a character device node (mode 020660). *)
Definition chardev (major minor : Z) : sysret * struct_stat :=
  (ok 0, {| st_mode := 8624; st_rdev := makedev major minor |}).

(** A machine on which every node has the status [node], the
    session hands out descriptor 7, [fcntl] answers [getfl] and [setfl],
    the bus library builds exactly the calls [alloc] accepts, the real-time
    signals range from 34 to [sigrtmax], the signal descriptor reads
    [signo], [signalfd] answers [sigfd] and the pending reply carries
    [reply]. *)
Definition machine (node : sysret * struct_stat) (getfl setfl : sysret)
  (alloc : string -> bool) (sigrtmax signo : Z) (sigfd : sysret)
  (reply : bool) : environment :=
  {| env_stat := fun _ => node;
     env_fstat := fun _ => node;
     env_open := fun _ _ => ok 3;
     env_fcntl_getfl := fun _ => getfl;
     env_fcntl_setfl := fun _ _ => setfl;
     env_ioctl := fun _ _ _ => ok 0;
     env_kb_mode := fun _ => K_UNICODE;
     env_read_signalfd := fun _ => (sizeof_signalfd_siginfo, signo);
     env_signalfd := sigfd;
     env_SIGRTMIN := 34;
     env_SIGRTMAX := sigrtmax;
     env_add_fd := fun _ => (Some 1, 0);
     env_message_new := alloc;
     env_append_args := fun _ _ => true;
     env_call_reply :=
       fun _ => Some (method_return [DUnixFd 7; DBoolean false]);
     env_send_with_reply := fun _ => true;
     env_set_notify := fun _ => true;
     env_steal_reply :=
       fun _ => Some (method_return [DVariant (DBoolean reply)])
  |}.

Definition always (member : string) : bool := true.

(** The usual machine: a DRM card, everything succeeds. *)
Definition plain_machine : environment :=
  machine (chardev DRM_MAJOR 0) (ok O_RDWR) (ok 0) always 64 34 (ok 5) true.

(** The same machine out of memory whenever the call [member] is to be
    allocated. *)
Definition starved_machine (getfl : sysret) (member : string) : environment :=
  machine (chardev DRM_MAJOR 0) getfl (ok 0)
    (fun m => negb (String.eqb m member)) 64 34 (ok 5) true.

(** The usual machine, but the session hands out a descriptor that is
    already non-blocking. *)
Definition nonblocking_machine : environment :=
  machine (chardev DRM_MAJOR 0) (ok (Z.lor O_RDWR O_NONBLOCK)) (ok 0) always
    64 34 (ok 5) true.

(** A machine whose nodes are the first virtual console and whose
    real-time signals range from 34 to [sigrtmax]. *)
Definition console_machine (sigrtmax : Z) (sigfd : sysret) : environment :=
  machine (chardev TTY_MAJOR 1) (ok O_RDWR) (ok 0) always sigrtmax 34 sigfd
    true.

Definition session (sync act : bool) : weston_logind :=
  {| compositor := {| session_active := act |};
     sync_drm := sync;
     seat := "seat0";
     sid := "c1";
     vtnr := 1;
     vt := 3;
     kb_mode := K_UNICODE;
     sfd := 5;
     sfd_source := Some 1;
     spath := "/org/freedesktop/login1/session/c1";
     pending_active := None |}.

(** A connected session with an empty history. *)
Definition boot (sync act : bool) : world :=
  {| wl := session sync act;
     errno := 0;
     dbus := {| next_pending := 0; outstanding := [] |};
     halted := false;
     trace := [] |}.

Definition signal (iface member : string) (args : list dbus_value)
  : DBusMessage :=
  {| m_type := DBUS_MESSAGE_TYPE_SIGNAL;
     m_destination := "";
     m_path := "/org/freedesktop/login1/session/c1";
     m_interface := iface;
     m_member := member;
     m_args := args |}.

Definition pause_device (major minor : Z) (kind : string) : DBusMessage :=
  signal "org.freedesktop.login1.Session" "PauseDevice"
    [DUInt32 major; DUInt32 minor; DString kind].

Definition resume_device (major minor fd : Z) : DBusMessage :=
  signal "org.freedesktop.login1.Session" "ResumeDevice"
    [DUInt32 major; DUInt32 minor; DUnixFd fd].

(** A PropertiesChanged push signal with the given changed and invalidated
    properties. *)
Definition properties_changed (changed : list dbus_value)
  (invalidated : list dbus_value) : DBusMessage :=
  signal "org.freedesktop.DBus.Properties" "PropertiesChanged"
    [DString "org.freedesktop.login1.Session"; DArray changed;
     DArray invalidated].

Definition active_entry (b : bool) : dbus_value :=
  DDictEntry (DString "Active") (DVariant (DBoolean b)).

(** The input [i] is a PropertiesChanged push signal whose first Active
    entry carries [b]: a signal with that interface and member, whatever
    its sender, destination and object path, whose arguments start with an
    interface name and the dictionary of changed properties, in which the
    entries before the one named Active are other properties.  Whatever
    follows the dictionary is not constrained. *)
Definition is_push (b : bool) (i : input) : Prop :=
  exists m iface pre post rest,
    i = bus_message m
    /\ dbus_message_is_signal m "org.freedesktop.DBus.Properties"
         "PropertiesChanged" = true
    /\ m_args m
       = DString iface :: DArray (pre ++ active_entry b :: post) :: rest
    /\ forallb other_property pre = true.


(** A resume notification for the device class [major]. *)
Definition is_resume_of (major : Z) (i : input) : Prop :=
  exists m rest,
    i = bus_message m
    /\ dbus_message_is_signal m "org.freedesktop.login1.Session" "ResumeDevice"
       = true
    /\ m_args m = DUInt32 major :: rest.

(** What every entry into the unit guarantees: the synchronization mode is
    fixed; while it is on, only a resume notification for the DRM major
    raises the flag; and the pending-query bookkeeping stays consistent. *)
Definition sound_step (env : environment) (i : input) (w w' : world) : Prop :=
  sync_drm (wl w') = sync_drm (wl w)
  /\ (sync_drm (wl w) = true -> active w = false -> active w' = true ->
      is_resume_of DRM_MAJOR i)
  /\ (consistent w -> consistent w').

(** * Properties *)

(** ** Bookkeeping on worlds and traces *)

Lemma bind_run {A B} (c : M A) (k : A -> M B) (w : world) :
  bind c k w = k (fst (c w)) (snd (c w)).
Proof. unfold bind. destruct (c w); reflexivity. Qed.

Lemma notifications_app (a b : list event) :
  notifications (a ++ b) = (notifications a + notifications b)%nat.
Proof. unfold notifications. now rewrite filter_app, length_app. Qed.

(** Symbolic execution: unfold the monad, then follow the branches whose
    condition is already known. *)
Ltac known_branches :=
  repeat match goal with
         | H : ?c = true |- context [if ?c then _ else _] => rewrite H; cbn
         | H : ?c = false |- context [if ?c then _ else _] => rewrite H; cbn
         end.

Ltac exec :=
  unfold bind, pure, emit, get_wl, put_wl, get_errno, set_errno, get_dbus,
    put_dbus, with_trace; cbn; known_branches.

(* one world after another: binds become compositions of [fst] and [snd] *)
Ltac steps :=
  rewrite ?bind_run;
  cbn [pure fst snd set_errno get_errno get_wl put_wl get_dbus put_dbus emit
       with_trace close trace wl errno dbus halted].

(* follow both outcomes of whatever the execution waits for *)
Ltac case_scrutinee :=
  match goal with
  | |- context [match ?x with _ => _ end] =>
      destruct x eqn:?; cbn; known_branches
  end.

(** ** The active flag and its notifications *)

Lemma set_active_same (w : world) :
  snd (weston_logind_set_active (active w) w) = w.
Proof.
  unfold weston_logind_set_active, active, bind, get_wl, pure.
  now rewrite Bool.eqb_reflx.
Qed.

Lemma set_active_spec (v : bool) (w : world) :
  let w' := snd (weston_logind_set_active v w) in
  active w' = v /\
  trace w' = trace w ++ (if Bool.eqb (active w) v then []
                         else [ev_session_signal {| session_active := v |}]) /\
  wl w' = set_session_active (wl w) v /\
  dbus w' = dbus w /\ halted w' = halted w /\ errno w' = errno w.
Proof.
  unfold weston_logind_set_active, active, bind, get_wl, pure, put_wl, emit.
  destruct w as [[[a] ? ? ? ? ? ? ? ? ? ?] ? ? ? ?]; cbn.
  destruct a, v; cbn; rewrite ?app_nil_r; repeat split; reflexivity.
Qed.

Lemma last_nonempty {A} (l : list A) (a d d' : A) :
  last (a :: l) d = last (a :: l) d'.
Proof.
  revert a. induction l as [|b l IH]; intros a; [reflexivity|].
  change (last (b :: l) d = last (b :: l) d'). apply IH.
Qed.

Lemma write_active_spec (vals : list bool) : forall w : world,
  notifications (trace (snd (write_active vals w))) =
    (notifications (trace w) + transitions (active w) vals)%nat /\
  active (snd (write_active vals w)) = last vals (active w).
Proof.
  induction vals as [|v rest IH]; intros w.
  - cbn. split; [lia | reflexivity].
  - cbn [write_active]. rewrite bind_run.
    destruct (set_active_spec v w) as (Ha & Ht & _).
    destruct (IH (snd (weston_logind_set_active v w))) as [IH1 IH2].
    rewrite IH1, IH2, Ht, Ha, notifications_app. split.
    + cbn [transitions]. destruct (Bool.eqb (active w) v); cbn; lia.
    + destruct rest as [|b rest]; [reflexivity|].
      change (last (b :: rest) v = last (b :: rest) (active w)).
      apply last_nonempty.
Qed.

(** C6.  Writing the active flag notifies once per logical transition: over
    any sequence of writes, the notifications emitted are exactly the writes
    that change the state they find; a write of the current value changes
    nothing and emits nothing; and the same value written twice is notified
    at most once, exactly once when it differs from the state before. *)
Theorem set_active_notifies_once_per_transition :
  forall (w : world) (vals : list bool) (v : bool),
    notifications (trace (snd (write_active vals w))) =
      (notifications (trace w) + transitions (active w) vals)%nat
    /\ snd (weston_logind_set_active (active w) w) = w
    /\ notifications (trace (snd (write_active [v; v] w))) =
         (notifications (trace w)
          + (if Bool.eqb (active w) v then 0 else 1))%nat
    /\ active (snd (write_active [v; v] w)) = v.
Proof.
  intros w vals v. split; [apply write_active_spec|].
  split; [apply set_active_same|].
  destruct (write_active_spec [v; v] w) as [Hn Ha].
  rewrite Hn, Ha. cbn. rewrite Bool.eqb_reflx. split; [lia | reflexivity].
Qed.

(** ** Fire-and-forget calls of the device arbiter *)

Lemma sent_app (a b : list event) : sent (a ++ b) = sent a ++ sent b.
Proof. unfold sent. apply flat_map_app. Qed.

Lemma sent_oneway_trace env path member major minor :
  sent (oneway_trace env path member major minor) =
  if builds env path member major minor
  then [session_call path member [DUInt32 major; DUInt32 minor]] else [].
Proof.
  unfold oneway_trace, builds.
  destruct (env_message_new env member); [|reflexivity].
  destruct (env_append_args env _ _); reflexivity.
Qed.

Lemma release_device_spec env major minor w :
  let w' := snd (weston_logind_release_device env major minor w) in
  same_state w w' /\
  trace w' = trace w
             ++ oneway_trace env (spath (wl w)) "ReleaseDevice" major minor.
Proof.
  unfold weston_logind_release_device, oneway_trace, same_state,
    dbus_message_new_method_call, dbus_message_append_args,
    dbus_connection_send, dbus_message_unref, session_call.
  unfold bind, pure, emit, get_wl, with_trace; cbn.
  destruct (env_message_new env "ReleaseDevice"); cbn;
    [|repeat split; reflexivity].
  destruct (env_append_args env _ _); cbn; rewrite <- ?app_assoc;
    repeat split; reflexivity.
Qed.

Lemma pause_device_complete_spec env major minor w :
  let w' := snd (weston_logind_pause_device_complete env major minor w) in
  same_state w w' /\
  trace w' =
  trace w ++ oneway_trace env (spath (wl w)) "PauseDeviceComplete" major minor.
Proof.
  unfold weston_logind_pause_device_complete, oneway_trace, same_state,
    dbus_message_new_method_call, dbus_message_append_args,
    dbus_connection_send, dbus_message_unref, session_call.
  unfold bind, pure, emit, get_wl, with_trace; cbn.
  destruct (env_message_new env "PauseDeviceComplete"); cbn;
    [|repeat split; reflexivity].
  destruct (env_append_args env _ _); cbn; rewrite <- ?app_assoc;
    repeat split; reflexivity.
Qed.

(** ** Pause notifications *)

Lemma device_paused_spec env m major minor kind rest w :
  m_args m = DUInt32 major :: DUInt32 minor :: DString kind :: rest ->
  let w' := snd (device_paused env m w) in
  trace w' = trace w
    ++ (if String.eqb kind "pause"
        then oneway_trace env (spath (wl w)) "PauseDeviceComplete" major minor
        else [])
    ++ (if sync_drm (wl w) && (major =? DRM_MAJOR) && active w
        then [ev_session_signal {| session_active := false |}] else [])
  /\ active w' = (if sync_drm (wl w) && (major =? DRM_MAJOR) then false
                  else active w)
  /\ sync_drm (wl w') = sync_drm (wl w)
  /\ pending_active (wl w') = pending_active (wl w)
  /\ dbus w' = dbus w /\ halted w' = halted w.
Proof.
  intros H. unfold device_paused. rewrite H.
  cbn [dbus_message_get_args type_of dbus_type_eqb option_map].
  rewrite !bind_run.
  set (w1 := snd ((if String.eqb kind "pause"
                   then weston_logind_pause_device_complete env major minor
                   else pure tt) w)).
  assert (S1 : same_state w w1
               /\ trace w1 =
                  trace w
                  ++ (if String.eqb kind "pause"
                      then oneway_trace env (spath (wl w))
                             "PauseDeviceComplete" major minor
                      else [])).
  { subst w1. destruct (String.eqb kind "pause").
    - apply pause_device_complete_spec.
    - cbn. rewrite app_nil_r. repeat split. }
  destruct S1 as ((Hwl & Herr & Hd & Hh) & Ht).
  cbn [get_wl fst snd]. rewrite Hwl.
  destruct (sync_drm (wl w) && (major =? DRM_MAJOR)) eqn:C.
  - destruct (set_active_spec false w1) as (Ha & Ht' & Hwl' & Hd' & Hh' & _).
    cbv zeta. rewrite Ha, Ht', Hwl', Hd', Hh', Ht, Hd, Hh, <- app_assoc.
    unfold active. rewrite Hwl.
    destruct (session_active (compositor (wl w))); cbn; repeat split;
      reflexivity.
  - cbn. rewrite Ht, Hd, Hh. unfold active. rewrite Hwl, app_nil_r.
    repeat split; reflexivity.
Qed.

(** C7, as the code has it.  For a well-formed pause notification the
    messages sent on the bus grow by exactly one PauseDeviceComplete call
    carrying the major/minor pair of the notification when its kind is
    "pause" and the bus library manages to build the call, whatever the
    device class; they do not grow at all for any other kind ("force",
    "gone"), nor when the call cannot be built. *)
Theorem pause_acknowledged_when_built :
  forall (env : environment) (m : DBusMessage) (major minor : Z)
         (kind : string) (rest : list dbus_value) (w : world),
    m_args m = DUInt32 major :: DUInt32 minor :: DString kind :: rest ->
    sent (trace (snd (device_paused env m w))) =
    sent (trace w)
    ++ (if String.eqb kind "pause"
           && builds env (spath (wl w)) "PauseDeviceComplete" major minor
        then [session_call (spath (wl w)) "PauseDeviceComplete"
                [DUInt32 major; DUInt32 minor]]
        else []).
Proof.
  intros env m major minor kind rest w H.
  destruct (device_paused_spec env m major minor kind rest w H) as (Ht & _).
  rewrite Ht, !sent_app. f_equal.
  replace (sent (if sync_drm (wl w) && (major =? DRM_MAJOR) && active w
                 then [ev_session_signal {| session_active := false |}]
                 else [])) with (@nil DBusMessage)
    by (destruct (sync_drm (wl w) && (major =? DRM_MAJOR) && active w);
        reflexivity).
  rewrite app_nil_r.
  destruct (String.eqb kind "pause"); [|reflexivity].
  apply sent_oneway_trace.
Qed.

Lemma pause_acknowledged_when_built_witness :
  sent (trace (snd (device_paused plain_machine (pause_device 13 64 "pause")
                      (boot true true)))) =
  [session_call "/org/freedesktop/login1/session/c1" "PauseDeviceComplete"
     [DUInt32 13; DUInt32 64]].
Proof.
  apply (pause_acknowledged_when_built plain_machine
           (pause_device 13 64 "pause") 13 64 "pause" [] (boot true true)).
  reflexivity.
Defined.

(** C7 as stated fails when the bus library cannot allocate the
    acknowledgment: the notification is well formed and of kind "pause",
    and nothing is sent. *)
Lemma pause_unacknowledged_without_memory :
  m_args (pause_device DRM_MAJOR 0 "pause")
    = [DUInt32 DRM_MAJOR; DUInt32 0; DString "pause"]
  /\ sent (trace (snd (filter_dbus
                         (starved_machine (ok O_RDWR) "PauseDeviceComplete")
                         (pause_device DRM_MAJOR 0 "pause")
                         (boot true true)))) = [].
Proof. split; reflexivity. Qed.

(** The scenario of the spec: a "gone" notification for the DRM major
    clears the flag of a synchronized session and is not acknowledged. *)
Example pause_gone_on_drm_major :
  active (snd (filter_dbus plain_machine (pause_device DRM_MAJOR 0 "gone")
                 (boot true true))) = false
  /\ trace (snd (filter_dbus plain_machine (pause_device DRM_MAJOR 0 "gone")
                   (boot true true)))
     = [ev_session_signal {| session_active := false |}].
Proof. split; reflexivity. Qed.

(** ** Opening a device *)

Lemma take_device_frame env major minor po w :
  let w' := snd (weston_logind_take_device env major minor po w) in
  same_state w w'
  /\ exists tr,
       trace w' = trace w ++ tr /\ sent tr = []
       /\ forallb is_bus_event tr = true.
Proof.
  unfold weston_logind_take_device, same_state, dbus_message_new_method_call,
    dbus_message_append_args, dbus_connection_send_with_reply_and_block,
    dbus_message_unref.
  exec.
  repeat case_scrutinee;
    (repeat split; try reflexivity; rewrite <- ?app_assoc; eexists;
     split; [reflexivity|split; reflexivity]).
Qed.

Lemma stat_run env path w :
  stat env path w =
  ((rv (fst (env_stat env path)), snd (env_stat env path)),
   {| wl := wl w;
      errno := if rv (fst (env_stat env path)) <? 0
               then rerrno (fst (env_stat env path)) else errno w;
      dbus := dbus w; halted := halted w;
      trace := trace w ++ [ev_stat path] |}).
Proof.
  unfold stat, syscall. exec. destruct (rv _ <? 0); reflexivity.
Qed.

Lemma stat_result env path w :
  fst (stat env path w)
  = (rv (fst (env_stat env path)), snd (env_stat env path)).
Proof. now rewrite stat_run. Qed.

Lemma release_device_trace env major minor w :
  trace (snd (weston_logind_release_device env major minor w)) =
  trace w ++ oneway_trace env (spath (wl w)) "ReleaseDevice" major minor.
Proof. apply release_device_spec. Qed.

Lemma land_nonblock (x : Z) :
  (Z.land x O_NONBLOCK =? 0) = negb (Z.testbit x 11).
Proof.
  change O_NONBLOCK with (2 ^ 11).
  destruct (Z.testbit x 11) eqn:B; cbn [negb].
  - apply Z.eqb_neq. intros E.
    assert (T : Z.testbit (Z.land x (2 ^ 11)) 11 = true)
      by (rewrite Z.land_spec, B, Z.pow2_bits_true by lia; reflexivity).
    rewrite E in T. discriminate.
  - apply Z.eqb_eq. apply Z.bits_inj'. intros n Hn.
    rewrite Z.land_spec, Z.bits_0, Z.pow2_bits_eqb by lia.
    destruct (Z.eqb_spec 11 n) as [<-|]; [now rewrite B|apply andb_false_r].
Qed.

Lemma adjusted_flags_bits (flags fl n : Z) :
  0 <= n ->
  Z.testbit (adjusted_flags flags fl) n =
  if n =? 11 then Z.testbit fl 11 || Z.testbit flags 11 else Z.testbit fl n.
Proof.
  intros Hn. unfold adjusted_flags. rewrite land_nonblock.
  destruct (Z.testbit flags 11) eqn:B; cbn [negb].
  - change O_NONBLOCK with (2 ^ 11).
    rewrite Z.lor_spec, Z.pow2_bits_eqb by lia. rewrite (Z.eqb_sym 11 n).
    destruct (Z.eqb_spec n 11) as [->|]; [reflexivity|apply orb_false_r].
  - destruct (Z.eqb_spec n 11) as [->|]; [now rewrite orb_false_r|reflexivity].
Qed.

Lemma open_success env path flags w :
  0 <= fst (weston_logind_open env path flags w) ->
  let fd := fst (weston_logind_open env path flags w) in
  let w' := snd (weston_logind_open env path flags w) in
  let fl := rv (env_fcntl_getfl env fd) in
  0 <= fl /\
  0 <= rv (env_fcntl_setfl env fd (adjusted_flags flags fl)) /\
  exists tr,
    forallb is_bus_event tr = true
    /\ trace w' = trace w ++ (ev_stat path :: tr)
                  ++ [ev_fcntl_getfl fd;
                      ev_fcntl_setfl fd (adjusted_flags flags fl)].
Proof.
  unfold weston_logind_open. rewrite bind_run, stat_result.
  destruct (rv (fst (env_stat env path)) <? 0) eqn:Hstat; [cbn; lia|].
  destruct (S_ISCHR (st_mode (snd (env_stat env path)))) eqn:Hchr; [|cbn; lia].
  cbn [negb]. rewrite bind_run.
  set (st := snd (env_stat env path)) in *.
  assert (Hw1 : trace (snd (stat env path w)) = trace w ++ [ev_stat path])
    by (rewrite stat_run; reflexivity).
  set (w1 := snd (stat env path w)) in *.
  destruct (take_device_frame env (major (st_rdev st)) (minor (st_rdev st))
              false w1) as (_ & tr & Ht & _ & Hbus).
  destruct (weston_logind_take_device env (major (st_rdev st))
              (minor (st_rdev st)) false w1) as [[fd o] w2].
  cbn [fst snd] in *.
  destruct (fd <? 0) eqn:Hfd; [apply Z.ltb_lt in Hfd; cbn; lia|].
  unfold fcntl_getfl, fcntl_setfl, syscall. steps.
  destruct (rv (env_fcntl_getfl env fd) <? 0) eqn:Hget; steps; [lia|].
  fold (adjusted_flags flags (rv (env_fcntl_getfl env fd))).
  destruct (rv (env_fcntl_setfl env fd _) <? 0) eqn:Hset; steps; [lia|].
  intros _. apply Z.ltb_ge in Hget, Hset.
  split; [exact Hget|]. split; [exact Hset|].
  exists tr. split; [exact Hbus|].
  rewrite Ht, Hw1, <- !app_assoc. reflexivity.
Qed.

Lemma bus_events_no_fcntl (tr : list event) :
  forallb is_bus_event tr = true -> filter is_fcntl tr = [].
Proof.
  induction tr as [|e tr IH]; [reflexivity|].
  cbn [forallb filter]. intros H. apply andb_prop in H. destruct H as [He Ht].
  destruct e; try discriminate He; cbn [is_fcntl]; exact (IH Ht).
Qed.

(** C9, as the code has it.  The calls a successful open makes are [stat]
    on the path, calls into the bus library, and then one F_GETFL and one
    F_SETFL on the descriptor it returns: these two are the only [fcntl]
    calls of the whole open, and no other system call is made on the
    descriptor.  The flags it sets differ from the flags the service
    provided in the non-blocking bit at most: that bit is set when the
    caller's flags have it and is otherwise left as it was (never cleared);
    every other bit is as the service provided it. *)
Theorem open_sets_only_nonblock :
  forall (env : environment) (path : string) (flags : Z) (w : world),
    0 <= fst (weston_logind_open env path flags w) ->
    let fd := fst (weston_logind_open env path flags w) in
    let fl := rv (env_fcntl_getfl env fd) in
    exists (pre : list event) (fl' : Z),
      trace (snd (weston_logind_open env path flags w)) =
        trace w ++ pre ++ [ev_fcntl_getfl fd; ev_fcntl_setfl fd fl']
      /\ (exists tr, pre = ev_stat path :: tr
                     /\ forallb is_bus_event tr = true)
      /\ filter is_fcntl (trace (snd (weston_logind_open env path flags w))) =
         filter is_fcntl (trace w)
         ++ [ev_fcntl_getfl fd; ev_fcntl_setfl fd fl']
      /\ (forall n, 0 <= n -> n <> 11 -> Z.testbit fl' n = Z.testbit fl n)
      /\ Z.testbit fl' 11 = Z.testbit fl 11 || Z.testbit flags 11.
Proof.
  intros env path flags w H fd fl.
  destruct (open_success env path flags w H) as (_ & _ & tr & Hbus & Ht).
  exists (ev_stat path :: tr), (adjusted_flags flags fl).
  split; [exact Ht|]. split; [now exists tr|]. split; [|split].
  - fold fd fl in Ht. rewrite Ht, !filter_app.
    cbn [filter is_fcntl]. rewrite (bus_events_no_fcntl tr Hbus). reflexivity.
  - intros n Hn Hne. rewrite adjusted_flags_bits by exact Hn.
    destruct (Z.eqb_spec n 11); [contradiction|reflexivity].
  - now rewrite adjusted_flags_bits by lia.
Qed.

Lemma open_sets_only_nonblock_witness :
  exists (pre : list event) (fl' : Z),
    trace (snd (weston_logind_open plain_machine "/dev/dri/card0"
                  (Z.lor O_RDWR O_NONBLOCK) (boot true true))) =
      [] ++ pre ++ [ev_fcntl_getfl 7; ev_fcntl_setfl 7 fl']
    /\ (exists tr, pre = ev_stat "/dev/dri/card0" :: tr
                   /\ forallb is_bus_event tr = true)
    /\ filter is_fcntl
         (trace (snd (weston_logind_open plain_machine "/dev/dri/card0"
                        (Z.lor O_RDWR O_NONBLOCK) (boot true true)))) =
       [] ++ [ev_fcntl_getfl 7; ev_fcntl_setfl 7 fl']
    /\ (forall n, 0 <= n -> n <> 11 -> Z.testbit fl' n = Z.testbit O_RDWR n)
    /\ Z.testbit fl' 11
       = Z.testbit O_RDWR 11 || Z.testbit (Z.lor O_RDWR O_NONBLOCK) 11.
Proof.
  apply (open_sets_only_nonblock plain_machine "/dev/dri/card0"
           (Z.lor O_RDWR O_NONBLOCK) (boot true true)).
  vm_compute. discriminate.
Defined.

(** C9 as stated fails on a descriptor the service hands out non-blocking
    when the caller asks for a blocking one: the open succeeds and sets the
    flags it was given back unchanged, so the non-blocking bit of the
    descriptor (set) does not match the caller's (clear). *)
Lemma open_leaves_nonblocking_set :
  fst (weston_logind_open nonblocking_machine "/dev/dri/card0" O_RDWR
         (boot true true)) = 7
  /\ last (trace (snd (weston_logind_open nonblocking_machine "/dev/dri/card0"
                         O_RDWR (boot true true))))
          (ev_close 0)
     = ev_fcntl_setfl 7 (Z.lor O_RDWR O_NONBLOCK)
  /\ Z.testbit (Z.lor O_RDWR O_NONBLOCK) 11 = true
  /\ Z.testbit O_RDWR 11 = false.
Proof. repeat split; reflexivity. Qed.

(** C4, as the code has it.  When the node is a character device, the
    take-device call hands out a descriptor and then F_GETFL or F_SETFL
    fails, [weston_logind_open] closes that descriptor, runs the
    release-device call for the major/minor pair it took and returns -1
    with the [errno] of the failed [fcntl].  The release is best effort:
    exactly one ReleaseDevice message for that pair is sent when the bus
    library manages to build it, none otherwise, and nothing else is sent. *)
Theorem open_releases_after_local_failure :
  forall (env : environment) (path : string) (flags : Z) (w : world),
    let st := snd (env_stat env path) in
    let dev_major := major (st_rdev st) in
    let dev_minor := minor (st_rdev st) in
    let taken :=
      weston_logind_take_device env dev_major dev_minor false
        (snd (stat env path w)) in
    let fd := fst (fst taken) in
    let fl := rv (env_fcntl_getfl env fd) in
    let fl' := adjusted_flags flags fl in
    0 <= rv (fst (env_stat env path)) ->
    S_ISCHR (st_mode st) = true ->
    0 <= fd ->
    fl < 0 \/ rv (env_fcntl_setfl env fd fl') < 0 ->
    let w' := snd (weston_logind_open env path flags w) in
    fst (weston_logind_open env path flags w) = -1
    /\ trace w' =
         trace (snd taken)
         ++ (ev_fcntl_getfl fd
             :: if fl <? 0 then [] else [ev_fcntl_setfl fd fl'])
         ++ ev_close fd
         :: oneway_trace env (spath (wl w)) "ReleaseDevice"
              dev_major dev_minor
    /\ sent (trace w') =
         sent (trace (snd taken))
         ++ (if builds env (spath (wl w)) "ReleaseDevice" dev_major dev_minor
             then [session_call (spath (wl w)) "ReleaseDevice"
                     [DUInt32 dev_major; DUInt32 dev_minor]]
             else [])
    /\ errno w' = (if fl <? 0 then rerrno (env_fcntl_getfl env fd)
                   else rerrno (env_fcntl_setfl env fd fl')).
Proof.
  intros env path flags w st maj min taken fd fl fl' Hstat Hchr Hfd Hfail.
  assert (T : fst (weston_logind_open env path flags w) = -1
              /\ trace (snd (weston_logind_open env path flags w)) =
                   trace (snd taken)
                   ++ (ev_fcntl_getfl fd
                       :: if fl <? 0 then [] else [ev_fcntl_setfl fd fl'])
                   ++ ev_close fd
                   :: oneway_trace env (spath (wl w)) "ReleaseDevice" maj min
              /\ errno (snd (weston_logind_open env path flags w)) =
                   (if fl <? 0 then rerrno (env_fcntl_getfl env fd)
                    else rerrno (env_fcntl_setfl env fd fl'))).
  { assert (Hwl : wl (snd taken) = wl w).
    { subst taken.
      destruct (take_device_frame env maj min false (snd (stat env path w)))
        as ((Hwl & _) & _).
      rewrite Hwl, stat_run. reflexivity. }
    unfold weston_logind_open. rewrite bind_run, stat_result.
    apply Z.ltb_ge in Hstat, Hfd. rewrite Hstat. fold st. rewrite Hchr.
    cbn [negb]. rewrite bind_run. fold maj min taken.
    destruct taken as [[fd0 o] w2] eqn:Etaken. cbn [fst snd] in *.
    subst fd fl'. rewrite Hfd.
    unfold fcntl_getfl, fcntl_setfl, syscall. steps.
    fold fl. fold (adjusted_flags flags fl).
    destruct (fl <? 0) eqn:Hget; steps.
    - rewrite release_device_trace. cbn [trace wl with_trace].
      rewrite Hwl, <- !app_assoc.
      repeat split; solve [reflexivity | lia].
    - assert (Hset : (rv (env_fcntl_setfl env fd0 (adjusted_flags flags fl))
                      <? 0) = true)
        by (apply Z.ltb_lt; apply Z.ltb_ge in Hget; lia).
      rewrite Hset. steps.
      rewrite release_device_trace. cbn [trace wl with_trace].
      rewrite Hwl, <- !app_assoc.
      repeat split; solve [reflexivity | lia]. }
  destruct T as (T0 & T1 & T2). cbv zeta.
  rewrite T0, T1, T2, !sent_app.
  change (sent (ev_close fd
                :: oneway_trace env (spath (wl w)) "ReleaseDevice" maj min))
    with (sent (oneway_trace env (spath (wl w)) "ReleaseDevice" maj min)).
  rewrite sent_oneway_trace.
  replace (sent (ev_fcntl_getfl fd
                 :: (if fl <? 0 then [] else [ev_fcntl_setfl fd fl'])))
    with (@nil DBusMessage) by (destruct (fl <? 0); reflexivity).
  repeat split; reflexivity.
Qed.

Lemma open_releases_after_local_failure_witness :
  sent (trace (snd (weston_logind_open
                      (machine (chardev DRM_MAJOR 0) (failing 9) (ok 0) always
                         64 34 (ok 5) true)
                      "/dev/dri/card0" O_RDWR (boot true true)))) =
  [session_call "/org/freedesktop/login1/session/c1" "ReleaseDevice"
     [DUInt32 DRM_MAJOR; DUInt32 0]].
Proof.
  apply (open_releases_after_local_failure
           (machine (chardev DRM_MAJOR 0) (failing 9) (ok 0) always
              64 34 (ok 5) true)
           "/dev/dri/card0" O_RDWR (boot true true));
    vm_compute; solve [reflexivity | discriminate | left; reflexivity].
Defined.

(** C4 as stated fails when the bus library cannot allocate the
    ReleaseDevice message: the device was taken, F_GETFL failed, the
    descriptor is closed and the open fails, yet no release is sent. *)
Lemma open_leaks_lease_without_memory :
  fst (weston_logind_open (starved_machine (failing 9) "ReleaseDevice")
         "/dev/dri/card0" O_RDWR (boot true true)) = -1
  /\ skipn 6 (trace (snd (weston_logind_open
                            (starved_machine (failing 9) "ReleaseDevice")
                            "/dev/dri/card0" O_RDWR (boot true true))))
     = [ev_fcntl_getfl 7; ev_close 7; ev_message_new "ReleaseDevice"]
  /\ sent (trace (snd (weston_logind_open
                         (starved_machine (failing 9) "ReleaseDevice")
                         "/dev/dri/card0" O_RDWR (boot true true)))) = [].
Proof. repeat split; reflexivity. Qed.

(** ** Closing a device *)

(** C10.  When the file-status query of the descriptor fails, or the
    descriptor is not a character special device, [weston_logind_close] only
    logs: after the status query it makes one log call and nothing else, so
    no call into the bus library is made, no message is sent, and the
    session object and the connection are as before. *)
Theorem close_without_release :
  forall (env : environment) (fd : Z) (w : world),
    rv (fst (env_fstat env fd)) < 0
    \/ S_ISCHR (st_mode (snd (env_fstat env fd))) = false ->
    let w' := snd (weston_logind_close env fd w) in
    (exists msg, trace w' = trace w ++ [ev_fstat fd; ev_log msg])
    /\ filter is_bus_event (trace w') = filter is_bus_event (trace w)
    /\ sent (trace w') = sent (trace w)
    /\ wl w' = wl w /\ dbus w' = dbus w.
Proof.
  intros env fd w H.
  assert (E : exists msg,
             trace (snd (weston_logind_close env fd w))
             = trace w ++ [ev_fstat fd; ev_log msg]
             /\ wl (snd (weston_logind_close env fd w)) = wl w
             /\ dbus (snd (weston_logind_close env fd w)) = dbus w).
  { unfold weston_logind_close, fstat, syscall, weston_log. exec.
    destruct (rv (fst (env_fstat env fd)) <? 0) eqn:E; cbn; known_branches.
    - rewrite <- app_assoc. eexists; repeat split.
    - destruct H as [H|H]; [apply Z.ltb_ge in E; lia|].
      rewrite H; cbn. rewrite <- app_assoc. eexists; repeat split. }
  destruct E as (msg & Ht & Hw & Hd). cbv zeta.
  rewrite Ht, Hw, Hd, filter_app, sent_app; cbn. rewrite !app_nil_r.
  repeat split; eauto.
Qed.

Lemma close_without_release_witness :
  sent (trace (snd (weston_logind_close
                      (machine (failing 9, {| st_mode := 0; st_rdev := 0 |})
                         (ok O_RDWR) (ok 0) always 64 34 (ok 5) true)
                      42 (boot true true)))) = [].
Proof.
  apply (close_without_release
           (machine (failing 9, {| st_mode := 0; st_rdev := 0 |})
              (ok O_RDWR) (ok 0) always 64 34 (ok 5) true)
           42 (boot true true)).
  left. cbn. lia.
Defined.

(** ** VT signals *)

Lemma to_uint_succ_neq (x : Z) : to_uint (to_uint x + 1) <> to_uint x.
Proof.
  unfold to_uint.
  pose proof (Z.mod_pos_bound x (2 ^ 32) ltac:(lia)) as B.
  destruct (Z.eq_dec (x mod 2 ^ 32 + 1) (2 ^ 32)) as [E|E].
  - rewrite E, Z.mod_same by lia. lia.
  - rewrite (Z.mod_small (x mod 2 ^ 32 + 1)) by lia. lia.
Qed.

(** C8.  When the signal descriptor delivers the release signal
    ([release = true]: a full read whose signal number is SIGRTMIN), the
    handler makes exactly one ioctl, VT_RELDISP with argument 1 on the VT
    descriptor, right after the read; when it delivers the acquire signal
    (SIGRTMIN + 1) it makes exactly one ioctl, VT_RELDISP with VT_ACKACQ.
    No other ioctl is made in either case. *)
Theorem signal_event_acknowledges :
  forall (env : environment) (fd : Z) (w : world) (release : bool),
    env_read_signalfd env fd =
      (sizeof_signalfd_siginfo,
       if release then to_uint (env_SIGRTMIN env)
       else to_uint (to_uint (env_SIGRTMIN env) + 1)) ->
    let ack := ev_ioctl (vt (wl w)) VT_RELDISP
                 (arg_int (if release then 1 else VT_ACKACQ)) in
    fst (signal_event env fd w) = 0
    /\ trace (snd (signal_event env fd w)) = trace w ++ [ev_read fd; ack]
    /\ filter is_ioctl (trace (snd (signal_event env fd w))) =
       filter is_ioctl (trace w) ++ [ack].
Proof.
  intros env fd w release H ack.
  assert (T : fst (signal_event env fd w) = 0
              /\ trace (snd (signal_event env fd w))
                 = trace w ++ [ev_read fd; ack]).
  { subst ack. unfold signal_event, ioctl, syscall, weston_log.
    rewrite !bind_run. cbn [emit fst snd]. rewrite H.
    rewrite Z.eqb_refl. cbn [negb]. rewrite !bind_run. cbn [get_wl fst snd].
    destruct release.
    - rewrite Z.eqb_refl. exec. rewrite <- app_assoc. split; reflexivity.
    - destruct (Z.eqb_spec (to_uint (to_uint (env_SIGRTMIN env) + 1))
                  (to_uint (env_SIGRTMIN env))) as [E|_];
        [exfalso; exact (to_uint_succ_neq _ E)|].
      rewrite Z.eqb_refl. exec. rewrite <- app_assoc. split; reflexivity. }
  destruct T as [T0 T1]. rewrite T0, T1, filter_app.
  repeat split; reflexivity.
Qed.

Lemma signal_event_acknowledges_witness :
  trace (snd (signal_event plain_machine 5 (boot true true))) =
  [ev_read 5; ev_ioctl 3 VT_RELDISP (arg_int 1)].
Proof.
  apply (signal_event_acknowledges plain_machine 5 (boot true true) true).
  reflexivity.
Defined.

(** ** VT setup *)

Lemma suffix_after {A} (t l s : list A) :
  (exists pre, l = pre ++ s) -> exists pre, t ++ l = t ++ pre ++ s.
Proof. intros [pre ->]. now exists pre. Qed.

(* split a list of calls into what comes before a given ending *)
Ltac find_prefix :=
  first
    [ exists []; reflexivity
    | match goal with
      | |- exists pre, ?x :: ?l = pre ++ ?s =>
          let H := fresh in
          let pre' := fresh "pre" in
          assert (H : exists pre, l = pre ++ s) by find_prefix;
          destruct H as [pre' H]; exists (x :: pre'); cbn [app];
          rewrite <- H; reflexivity
      end ].

Ltac ends_with :=
  rewrite <- ?app_assoc; cbn [app]; apply suffix_after; find_prefix.

Section VTSetup.

(* applied to a world, the operations of the monad unfold *)
Local Arguments bind {A B} c k w /.
Local Arguments pure {A} a w /.
Local Arguments emit e w /.
Local Arguments get_wl w /.
Local Arguments put_wl x w /.
Local Arguments get_errno w /.
Local Arguments set_errno e w /.
Local Arguments syscall e r w /.
Local Arguments with_trace w e /.
Local Arguments close fd w /.

Ltac run_world :=
  cbn [bind pure emit get_wl put_wl get_errno set_errno with_trace syscall
       close fst snd wl errno dbus halted trace negb andb orb
       compositor sync_drm seat sid vtnr vt kb_mode sfd sfd_source spath
       pending_active set_vt set_kb_mode set_sfd set_sfd_source].

(* follow the next answer of the kernel that the control flow waits for *)
Ltac answer :=
  match goal with
  | |- context [(if ?c then _ else _) _] => destruct c eqn:?
  | |- context [match fst (env_add_fd ?e ?s) with _ => _ end] =>
      destruct (fst (env_add_fd e s)) eqn:?
  end; run_world; known_branches; run_world.

(** The early return: once the VT is open, tested, muted and in graphics
    mode, a real-time signal range that is too short makes setup return
    -EINVAL right after its log call. *)
Lemma setup_vt_rt_range_returns_early env w :
  let path := tty_path (vtnr (wl w)) in
  let fd := rv (env_open env path vt_flags) in
  0 <= fd ->
  is_console env fd = true ->
  0 <= rv (env_ioctl env fd KDSKBMUTE (arg_int 1)) ->
  0 <= rv (env_ioctl env fd KDSETMODE (arg_int KD_GRAPHICS)) ->
  env_SIGRTMIN env + 1 > env_SIGRTMAX env ->
  fst (weston_logind_setup_vt env w) = - EINVAL
  /\ trace (snd (weston_logind_setup_vt env w)) =
     trace w
     ++ [ev_open path vt_flags; ev_fstat fd;
         ev_ioctl fd KDGKBMODE arg_kb_mode_ptr]
     ++ (if rv (env_ioctl env fd KDGKBMODE arg_kb_mode_ptr) <? 0
         then [ev_log "logind: cannot read keyboard mode on %s: %m"] else [])
     ++ [ev_ioctl fd KDSKBMUTE (arg_int 1);
         ev_ioctl fd KDSETMODE (arg_int KD_GRAPHICS);
         ev_log "logind: not enough RT signals available: %u-%u"].
Proof.
  intros path fd Hfd Hvt Hmute Hgfx Hrt.
  apply Z.ltb_ge in Hfd, Hmute, Hgfx.
  apply negb_true_iff in Hvt.
  assert (Hrt' : (env_SIGRTMIN env + 1 >? env_SIGRTMAX env) = true)
    by (apply Z.gtb_lt; lia).
  unfold weston_logind_setup_vt, open, fstat, ioctl, weston_log.
  run_world. fold vt_flags. fold path. fold fd.
  rewrite Hfd. run_world. rewrite Hvt. run_world.
  destruct (rv (env_ioctl env fd KDGKBMODE arg_kb_mode_ptr) <? 0);
    run_world; try destruct (env_kb_mode env fd =? K_OFF); run_world;
    rewrite Hmute; run_world; rewrite Hgfx, Hrt'; run_world;
    rewrite <- !app_assoc; split; reflexivity.
Qed.

(** Every other failure of setup unwinds what was done, in reverse order,
    before it returns: when the real-time signal range is wide enough, a
    failing setup that had opened the VT ends with the unwinding owed for
    the steps it had completed. *)
Lemma setup_vt_failure_unwinds env w :
  let fd := rv (env_open env (tty_path (vtnr (wl w))) vt_flags) in
  let w' := snd (weston_logind_setup_vt env w) in
  0 <= fd ->
  env_SIGRTMIN env + 1 <= env_SIGRTMAX env ->
  fst (weston_logind_setup_vt env w) <> 0 ->
  exists pre,
    trace w' = trace w ++ pre
               ++ unwinding fd (kb_mode (wl w'))
                    (is_console env fd && keyboard_muted env fd
                     && graphics_set env fd)
                    (is_console env fd && keyboard_muted env fd).
Proof.
  intros fd w' Hfd Hrt. subst w'.
  apply Z.ltb_ge in Hfd.
  assert (Hrt' : (env_SIGRTMIN env + 1 >? env_SIGRTMAX env) = false)
    by (rewrite Z.gtb_ltb; apply Z.ltb_ge; lia).
  unfold weston_logind_setup_vt, open, fstat, ioctl, weston_log,
    is_console, keyboard_muted, graphics_set, unwinding.
  run_world. fold vt_flags. fold fd. rewrite Hfd. run_world.
  destruct ((rv (fst (env_fstat env fd)) =? -1)
            || negb (major (st_rdev (snd (env_fstat env fd))) =? TTY_MAJOR)
            || (minor (st_rdev (snd (env_fstat env fd))) <=? 0)
            || (64 <=? minor (st_rdev (snd (env_fstat env fd))))) eqn:Hvt;
    run_world.
  { intros _. ends_with. }
  repeat answer.
  all: try (intros H; exfalso; apply H; reflexivity).
  all: intros _; ends_with.
Qed.

End VTSetup.

(** C3, at the failing input: a console on a platform whose real-time
    signals stop at SIGRTMIN.  Setup has opened the VT, muted the keyboard
    and switched to graphics mode when it finds the signal range too
    short; it then returns -EINVAL at once.  The calls it has made are
    listed in full: the console is not put back in text mode, the keyboard
    is not unmuted and the VT descriptor (3) is not closed. *)
Theorem setup_vt_rt_range_not_unwound :
  fst (weston_logind_setup_vt (console_machine 34 (ok 5)) (boot true true))
    = - EINVAL
  /\ trace (snd (weston_logind_setup_vt (console_machine 34 (ok 5))
                   (boot true true))) =
     [ev_open "/dev/tty1" (Z.lor (Z.lor O_RDWR O_CLOEXEC) O_NONBLOCK);
      ev_fstat 3;
      ev_ioctl 3 KDGKBMODE arg_kb_mode_ptr;
      ev_ioctl 3 KDSKBMUTE (arg_int 1);
      ev_ioctl 3 KDSETMODE (arg_int KD_GRAPHICS);
      ev_log "logind: not enough RT signals available: %u-%u"]
  /\ ~ In (ev_close 3)
         (trace (snd (weston_logind_setup_vt (console_machine 34 (ok 5))
                        (boot true true))))
  /\ ~ In (ev_ioctl 3 KDSETMODE (arg_int KD_TEXT))
         (trace (snd (weston_logind_setup_vt (console_machine 34 (ok 5))
                        (boot true true)))).
Proof.
  repeat split; try reflexivity;
    intros H; vm_compute in H;
    repeat (destruct H as [H|H]; [discriminate H|]); exact H.
Qed.

(** The neighbouring failure, one step later: when [signalfd] fails the
    same setup does unwind, in reverse order, before it returns. *)
Lemma setup_vt_signalfd_failure_unwinds :
  fst (weston_logind_setup_vt (console_machine 64 (failing 24))
         (boot true true)) = -24
  /\ skipn 8 (trace (snd (weston_logind_setup_vt
                            (console_machine 64 (failing 24))
                            (boot true true)))) =
     [ev_ioctl 3 KDSETMODE (arg_int KD_TEXT);
      ev_ioctl 3 KDSKBMUTE (arg_int 0);
      ev_ioctl 3 KDSKBMODE (arg_int K_UNICODE);
      ev_close 3].
Proof. split; reflexivity. Qed.

(** ** Session-active signals on the bus *)

Lemma parse_active_run iter w :
  parse_active iter w =
  match delivered iter with
  | Some b => if negb (sync_drm (wl w)) || negb b
              then weston_logind_set_active b w else (tt, w)
  | None => (tt, w)
  end.
Proof.
  destruct iter as [|[s|s|n|b|fd|v|l|k v] rest]; try reflexivity.
  destruct v; try reflexivity.
  unfold parse_active. cbn. unfold bind, get_wl, pure.
  destruct (negb (sync_drm (wl w)) || negb b); reflexivity.
Qed.

Lemma property_changed_entries_skip pre rest w :
  forallb other_property pre = true ->
  property_changed_entries (pre ++ rest) w = property_changed_entries rest w.
Proof.
  induction pre as [|v pre IH]; intros H; [reflexivity|].
  cbn [forallb] in H. apply andb_prop in H. destruct H as [Hv Hpre].
  destruct v as [| | | | | | |k v]; try discriminate Hv.
  destruct k as [name| | | | | | |]; try discriminate Hv.
  cbn [other_property] in Hv. apply negb_true_iff in Hv.
  cbn. rewrite Hv. apply IH; exact Hpre.
Qed.

Lemma signal_fields m iface member :
  dbus_message_is_signal m iface member = true ->
  m_type m = DBUS_MESSAGE_TYPE_SIGNAL
  /\ m_interface m = iface /\ m_member m = member.
Proof.
  unfold dbus_message_is_signal. destruct (m_type m); try discriminate.
  intros H. apply andb_prop in H. destruct H as [Hi Hm].
  apply String.eqb_eq in Hi, Hm. repeat split; assumption.
Qed.

(** A PropertiesChanged signal reaches [property_changed], whatever its
    sender and object path. *)
Lemma filter_properties_changed env m w :
  dbus_message_is_signal m "org.freedesktop.DBus.Properties"
    "PropertiesChanged" = true ->
  filter_dbus env m w = property_changed env m w.
Proof.
  intros H. destruct (signal_fields _ _ _ H) as (Ht & Hi & Hm).
  unfold filter_dbus. rewrite H.
  unfold dbus_message_is_signal. rewrite Ht, Hi, Hm. reflexivity.
Qed.

Lemma push_delivers env m iface b pre post rest w :
  dbus_message_is_signal m "org.freedesktop.DBus.Properties"
    "PropertiesChanged" = true ->
  m_args m = DString iface :: DArray (pre ++ active_entry b :: post) :: rest ->
  forallb other_property pre = true ->
  filter_dbus env m w = (tt, snd (parse_active [DVariant (DBoolean b)] w)).
Proof.
  intros Hsig Ha H. rewrite (filter_properties_changed env m w Hsig).
  unfold property_changed, dbus_message_iter_init. rewrite Ha.
  cbn -[property_changed_entries].
  rewrite bind_run, property_changed_entries_skip by exact H.
  cbn -[parse_active]. rewrite bind_run. cbn -[parse_active]. reflexivity.
Qed.

(** ** Steps that keep the session object and the connection *)

Lemma kept_refl w : kept w w.
Proof. split; reflexivity. Qed.

Lemma kept_trans w1 w2 w3 : kept w1 w2 -> kept w2 w3 -> kept w1 w3.
Proof. intros [A B] [C D]. split; congruence. Qed.

Lemma kept_emit e w : kept w (snd (emit e w)).
Proof. split; reflexivity. Qed.

Lemma kept_syscall e r w : kept w (snd (syscall e r w)).
Proof.
  unfold syscall. steps. destruct (rv r <? 0); split; reflexivity.
Qed.

Lemma kept_ioctl env fd req arg w : kept w (snd (ioctl env fd req arg w)).
Proof. apply kept_syscall. Qed.

Lemma kept_exit code w : kept w (snd (exit code w)).
Proof. split; reflexivity. Qed.

Lemma kept_restore env w : kept w (snd (weston_logind_restore env w)).
Proof.
  unfold weston_logind_restore. steps.
  repeat (eapply kept_trans; [|apply kept_ioctl]). apply kept_refl.
Qed.

Lemma kept_disconnected env w : kept w (snd (disconnected_dbus env w)).
Proof.
  unfold disconnected_dbus, weston_log. steps.
  eapply kept_trans; [|apply kept_exit].
  eapply kept_trans; [|apply kept_restore]. apply kept_emit.
Qed.

Lemma kept_session_removed env m w : kept w (snd (session_removed env m w)).
Proof.
  unfold session_removed, weston_log.
  destruct (dbus_message_get_args _ _) as [[|[] [|[] [|]]]|];
    try apply kept_emit.
  steps. destruct (String.eqb _ _); [|apply kept_refl]. steps.
  eapply kept_trans; [|apply kept_exit].
  eapply kept_trans; [|apply kept_restore]. apply kept_emit.
Qed.

Lemma kept_signal_event env fd w : kept w (snd (signal_event env fd w)).
Proof.
  unfold signal_event, weston_log. steps.
  destruct (env_read_signalfd env fd) as [n signo].
  destruct (negb (n =? sizeof_signalfd_siginfo)); steps; [split; reflexivity|].
  destruct (signo =? _); steps;
    [eapply kept_trans; [|apply kept_ioctl]; apply kept_emit|].
  destruct (signo =? _); steps;
    [eapply kept_trans; [|apply kept_ioctl]; apply kept_emit|].
  apply kept_emit.
Qed.

Lemma property_changed_entries_cases sub w :
  (fst (property_changed_entries sub w) = loop_return
   /\ exists iter,
        snd (property_changed_entries sub w) = snd (parse_active iter w))
  \/ (fst (property_changed_entries sub w) <> loop_return
      /\ snd (property_changed_entries sub w) = w).
Proof.
  induction sub as [|v rest IH]; [right; split; [discriminate|reflexivity]|].
  cbn [property_changed_entries].
  destruct (dbus_type_eqb (type_of v) DBUS_TYPE_DICT_ENTRY);
    [|right; split; [discriminate|reflexivity]].
  destruct (negb _); [right; split; [discriminate|reflexivity]|].
  destruct (dbus_message_iter_next _) as [ok entry].
  destruct (negb ok); [right; split; [discriminate|reflexivity]|].
  destruct (String.eqb _ "Active"); [|exact IH].
  left. rewrite bind_run. split; [reflexivity|]. exists entry. reflexivity.
Qed.

Lemma property_changed_invalidated_cases env sub w :
  snd (property_changed_invalidated env sub w)
  = snd (weston_logind_get_active env w)
  \/ snd (property_changed_invalidated env sub w) = w.
Proof.
  induction sub as [|v rest IH]; [right; reflexivity|].
  cbn [property_changed_invalidated].
  destruct (dbus_type_eqb (type_of v) DBUS_TYPE_STRING); [|right; reflexivity].
  destruct (String.eqb _ "Active"); [left; reflexivity|exact IH].
Qed.

Lemma property_changed_cases env m w :
  (exists iter, snd (property_changed env m w) = snd (parse_active iter w))
  \/ snd (property_changed env m w) = snd (weston_logind_get_active env w)
  \/ kept w (snd (property_changed env m w)).
Proof.
  unfold property_changed, weston_log.
  destruct (dbus_message_iter_init m) as [ok iter].
  destruct (negb ok || _); [right; right; apply kept_emit|].
  destruct (dbus_message_iter_next iter) as [ok1 iter1].
  destruct (negb ok1 || _); [right; right; apply kept_emit|].
  rewrite bind_run.
  destruct (property_changed_entries_cases (dbus_message_iter_recurse iter1) w)
    as [[Hx [it Hw]]|[Hx Hw]].
  - rewrite Hx. left. exists it. exact Hw.
  - rewrite Hw.
    destruct (fst (property_changed_entries
                     (dbus_message_iter_recurse iter1) w));
      [|contradiction|right; right; apply kept_emit].
    destruct (dbus_message_iter_next iter1) as [ok2 iter2].
    destruct (negb ok2 || _); [right; right; apply kept_emit|].
    destruct (property_changed_invalidated_cases env
                (dbus_message_iter_recurse iter2) w) as [H|H];
      rewrite H; [right; left; reflexivity|right; right; apply kept_refl].
Qed.

Lemma get_active_spec env w :
  let w' := snd (weston_logind_get_active env w) in
  let n := next_pending (dbus w) in
  wl w' = (if query_registered env w
           then set_pending_active (wl w) (Some n) else wl w)
  /\ dbus w' =
     (if query_sent env w then
        {| next_pending := S n;
           outstanding :=
             without (if env_set_notify env n then pending_active (wl w)
                      else Some n)
               (outstanding (dbus w) ++ [n]) |}
      else dbus w)
  /\ (query_registered env w = true ->
      trace w' =
      trace w
      ++ [ev_message_new "Get";
          ev_message_append (active_query (spath (wl w)) []) query_args;
          ev_send_with_reply (active_query (spath (wl w)) query_args);
          ev_pending_set_notify n]
      ++ match pending_active (wl w) with
         | Some old => [ev_pending_cancel old; ev_pending_unref (Some old)]
         | None => []
         end).
Proof.
  unfold weston_logind_get_active, query_registered, query_sent,
    dbus_message_new_method_call, dbus_message_append_args,
    dbus_connection_send_with_reply, dbus_pending_call_set_notify,
    dbus_pending_call_cancel, dbus_pending_call_unref, dbus_message_unref,
    active_query, query_args.
  exec.
  destruct (env_message_new env "Get"); cbn; [|repeat split; discriminate].
  destruct (env_append_args env _ _); cbn; [|repeat split; discriminate].
  destruct (env_send_with_reply env _); cbn; [|repeat split; discriminate].
  destruct (env_set_notify env (next_pending (dbus w))); cbn.
  - destruct (pending_active (wl w)) as [old|] eqn:E; cbn; rewrite ?E;
      repeat split; intros _; rewrite <- !app_assoc; reflexivity.
  - repeat split. discriminate.
Qed.

Lemma parse_active_spec iter w :
  let w' := snd (parse_active iter w) in
  active w' = match delivered iter with
              | Some b => if sync_drm (wl w) && b then active w else b
              | None => active w
              end
  /\ sync_drm (wl w') = sync_drm (wl w)
  /\ pending_active (wl w') = pending_active (wl w)
  /\ dbus w' = dbus w
  /\ trace w' = trace w
       ++ match delivered iter with
          | Some b => if (sync_drm (wl w) && b) || Bool.eqb (active w) b then []
                      else [ev_session_signal {| session_active := b |}]
          | None => []
          end.
Proof.
  rewrite parse_active_run.
  destruct (delivered iter) as [b|]; cbn [snd];
    [|rewrite app_nil_r; repeat split; reflexivity].
  destruct (set_active_spec b w) as (Ha & Ht & Hw & Hd & _).
  destruct (sync_drm (wl w)) eqn:S, b; cbn [negb orb andb snd];
    try (rewrite app_nil_r; repeat split; solve [reflexivity | exact S]).
  all: rewrite Ht, Hd, Ha, Hw; cbn; repeat split; solve [reflexivity | exact S].
Qed.

Lemma get_active_cb_spec env p w :
  let w' := snd (get_active_cb env p w) in
  pending_active (wl w') = None
  /\ dbus w' = dbus w
  /\ sync_drm (wl w') = sync_drm (wl w)
  /\ active w' =
     match env_steal_reply env p with
     | Some m =>
         match m_type m, delivered (m_args m) with
         | DBUS_MESSAGE_TYPE_METHOD_RETURN, Some b =>
             if sync_drm (wl w) && b then active w else b
         | _, _ => active w
         end
     | None => active w
     end.
Proof.
  unfold get_active_cb, dbus_pending_call_unref, dbus_pending_call_steal_reply,
    dbus_message_unref, active.
  steps.
  destruct (env_steal_reply env p) as [m|]; steps; [|repeat split; reflexivity].
  destruct (m_type m); steps; try (repeat split; reflexivity).
  unfold dbus_message_iter_init.
  destruct (m_args m) as [|v rest] eqn:E; cbn [negb]; steps;
    [repeat split; reflexivity|].
  match goal with |- context [parse_active ?i ?x] =>
    destruct (parse_active_spec i x) as (Ha & Hs & Hp & Hd & _) end.
  unfold active in Ha. rewrite Hp, Hd, Hs, Ha. cbn. repeat split; reflexivity.
Qed.

Lemma device_resumed_spec m w :
  let w' := snd (device_resumed m w) in
  sync_drm (wl w') = sync_drm (wl w)
  /\ pending_active (wl w') = pending_active (wl w)
  /\ dbus w' = dbus w
  /\ (forall major rest, m_args m = DUInt32 major :: rest ->
        active w' = (if sync_drm (wl w) && (major =? DRM_MAJOR) then true
                     else active w))
  /\ (active w' <> active w ->
        exists rest, m_args m = DUInt32 DRM_MAJOR :: rest).
Proof.
  unfold device_resumed, weston_log.
  destruct (m_args m) as [|[s|s|major|b|fd|v|l|k v] rest] eqn:E;
    cbn [dbus_message_get_args type_of dbus_type_eqb option_map];
    try (unfold active; cbn; repeat split; solve [reflexivity | congruence]).
  steps.
  destruct (sync_drm (wl w) && (major =? DRM_MAJOR)) eqn:C.
  - destruct (set_active_spec true w) as (Ha & _ & Hw & Hd & _).
    rewrite Hw, Hd, Ha. cbn. repeat split.
    + intros major' rest' H. injection H as <- <-. rewrite C. reflexivity.
    + intros _. exists rest. apply andb_prop in C. destruct C as [_ C].
      apply Z.eqb_eq in C. now rewrite C.
  - cbn. repeat split.
    + intros major' rest' H. injection H as <- <-. rewrite C. reflexivity.
    + congruence.
Qed.

Lemma pause_args_cases (args : list dbus_value) :
  (exists major minor kind rest,
      args = DUInt32 major :: DUInt32 minor :: DString kind :: rest)
  \/ dbus_message_get_args args
       [DBUS_TYPE_UINT32; DBUS_TYPE_UINT32; DBUS_TYPE_STRING] = None.
Proof.
  destruct args as [|v1 args]; [right; reflexivity|].
  destruct v1; try (right; reflexivity).
  destruct args as [|v2 args]; [right; reflexivity|].
  destruct v2; try (right; reflexivity).
  destruct args as [|v3 args]; [right; reflexivity|].
  destruct v3; try (right; reflexivity).
  left. eauto.
Qed.

Lemma device_paused_frame env m w :
  let w' := snd (device_paused env m w) in
  sync_drm (wl w') = sync_drm (wl w)
  /\ pending_active (wl w') = pending_active (wl w)
  /\ dbus w' = dbus w
  /\ (active w' = true -> active w = true).
Proof.
  destruct (pause_args_cases (m_args m))
    as [(major & minor & kind & rest & E)|E].
  - destruct (device_paused_spec env m major minor kind rest w E)
      as (_ & Ha & Hs & Hp & Hd & _).
    cbv zeta. rewrite Ha, Hs, Hp, Hd. repeat split.
    destruct (sync_drm (wl w) && (major =? DRM_MAJOR)); [discriminate|trivial].
  - unfold device_paused, weston_log, active. rewrite E. cbn.
    repeat split; trivial.
Qed.

(** ** Every entry into the unit *)

Lemma sound_kept env i w w' : kept w w' -> sound_step env i w w'.
Proof.
  intros [Hw Hd]. unfold sound_step, consistent, active. rewrite Hw, Hd.
  repeat split; try tauto. congruence.
Qed.

Lemma sound_parse_active env i iter w :
  sound_step env i w (snd (parse_active iter w)).
Proof.
  destruct (parse_active_spec iter w) as (Ha & Hs & Hp & Hd & _).
  unfold sound_step, consistent. rewrite Ha, Hs, Hp, Hd.
  repeat split; try tauto.
  intros S F. rewrite S. destruct (delivered iter) as [[|]|]; cbn; congruence.
Qed.

Lemma filter_not_in (p : nat) (l : list nat) :
  ~ In p l -> filter (fun x => negb (Nat.eqb x p)) l = l.
Proof.
  induction l as [|a l IH]; intros H; [reflexivity|].
  cbn. destruct (Nat.eqb_spec a p) as [->|_]; cbn.
  - exfalso. apply H. now left.
  - f_equal. apply IH. intros K. apply H. now right.
Qed.

Lemma consistent_get_active env w :
  consistent w -> consistent (snd (weston_logind_get_active env w)).
Proof.
  intros [Ho Hf].
  destruct (get_active_spec env w) as (Hw & Hd & _).
  unfold consistent. rewrite Hw, Hd. unfold query_registered.
  destruct (query_sent env w); cbn [andb]; [|split; assumption].
  cbn [outstanding next_pending]. rewrite Ho in *.
  destruct (env_set_notify env (next_pending (dbus w)));
    cbn [pending_active set_pending_active].
  - destruct (pending_active (wl w)) as [old|]; cbn [slot without app] in *.
    + assert (old < next_pending (dbus w))%nat by (apply Hf; now left).
      cbn. rewrite Nat.eqb_refl. cbn.
      destruct (Nat.eqb_spec (next_pending (dbus w)) old); [lia|]. cbn.
      split; [reflexivity|]. intros p [<-|[]]. lia.
    + split; [reflexivity|]. intros p [<-|[]]. lia.
  - cbn [without].
    destruct (pending_active (wl w)) as [old|]; cbn [slot app] in *.
    + assert (old < next_pending (dbus w))%nat by (apply Hf; now left).
      cbn. rewrite Nat.eqb_refl. cbn.
      destruct (Nat.eqb_spec old (next_pending (dbus w))); [lia|]. cbn.
      split; [reflexivity|]. intros p [<-|[]]. lia.
    + cbn. rewrite Nat.eqb_refl. cbn. split; [reflexivity|]. intros p [].
Qed.

Lemma sound_get_active env i w :
  sound_step env i w (snd (weston_logind_get_active env w)).
Proof.
  destruct (get_active_spec env w) as (Hw & _ & _).
  split; [|split].
  - rewrite Hw. destruct (query_registered env w); reflexivity.
  - unfold active. rewrite Hw.
    destruct (query_registered env w); cbn; congruence.
  - apply consistent_get_active.
Qed.

Lemma sound_device_paused env m w :
  sound_step env (bus_message m) w (snd (device_paused env m w)).
Proof.
  destruct (device_paused_frame env m w) as (Hs & Hp & Hd & Ha).
  unfold sound_step, consistent. rewrite Hs, Hp, Hd.
  repeat split; try tauto. intros _ F T. apply Ha in T. congruence.
Qed.

Lemma sound_device_resumed env m w :
  dbus_message_is_signal m "org.freedesktop.login1.Session" "ResumeDevice"
    = true ->
  sound_step env (bus_message m) w (snd (device_resumed m w)).
Proof.
  intros Hsig.
  destruct (device_resumed_spec m w) as (Hs & Hp & Hd & _ & Ha).
  unfold sound_step, consistent. rewrite Hs, Hp, Hd.
  repeat split; try tauto. intros _ F T.
  destruct Ha as [rest Hargs]; [congruence|].
  exists m, rest. repeat split; assumption.
Qed.

Lemma sound_filter_dbus env m w :
  sound_step env (bus_message m) w (snd (filter_dbus env m w)).
Proof.
  unfold filter_dbus.
  destruct (dbus_message_is_signal m DBUS_INTERFACE_LOCAL "Disconnected");
    [apply sound_kept, kept_disconnected|].
  destruct (dbus_message_is_signal m "org.freedesktop.login1.Manager"
              "SessionRemoved");
    [apply sound_kept, kept_session_removed|].
  destruct (dbus_message_is_signal m "org.freedesktop.DBus.Properties"
              "PropertiesChanged").
  { destruct (property_changed_cases env m w) as [[iter H]|[H|H]].
    - rewrite H. apply sound_parse_active.
    - rewrite H. apply sound_get_active.
    - apply sound_kept, H. }
  destruct (dbus_message_is_signal m "org.freedesktop.login1.Session"
              "PauseDevice");
    [apply sound_device_paused|].
  destruct (dbus_message_is_signal m "org.freedesktop.login1.Session"
              "ResumeDevice") eqn:R;
    [apply sound_device_resumed, R|].
  apply sound_kept. split; reflexivity.
Qed.

Lemma existsb_eqb_in (p : nat) (l : list nat) :
  existsb (Nat.eqb p) l = true <-> In p l.
Proof.
  rewrite existsb_exists. split.
  - intros (x & Hin & E). apply Nat.eqb_eq in E. now subst.
  - intros H. exists p. split; [exact H|apply Nat.eqb_refl].
Qed.

Lemma sound_dispatch env i w : sound_step env i w (snd (dispatch env i w)).
Proof.
  destruct i as [m|p|]; cbn [dispatch].
  - apply sound_filter_dbus.
  - steps. destruct (existsb (Nat.eqb p) (outstanding (dbus w))) eqn:E;
      [|apply sound_kept; split; reflexivity].
    steps.
    match goal with |- context [get_active_cb env p ?x] =>
      destruct (get_active_cb_spec env p x) as (Hp & Hd & Hs & Ha) end.
    unfold active in Ha. cbn [wl dbus] in *.
    unfold sound_step, consistent, active. rewrite Hp, Hd, Hs, Ha.
    apply existsb_eqb_in in E.
    repeat split.
    + intros S F. rewrite S.
      destruct (env_steal_reply env p) as [m|]; [|congruence].
      destruct (m_type m); try congruence.
      destruct (delivered (m_args m)) as [[|]|]; cbn; congruence.
    + cbn. destruct H as [Ho _]. rewrite Ho in *.
      destruct (pending_active (wl w)) as [q|]; cbn in *; [|reflexivity].
      destruct E as [<-|[]]. now rewrite Nat.eqb_refl.
    + cbn. intros q Hq. apply filter_In in Hq. destruct H as [_ Hf].
      apply Hf, Hq.
  - steps. apply sound_kept.
    apply kept_signal_event.
Qed.

(** ** The active flag under synchronization *)

Lemma dispatch_push env b i w :
  is_push b i ->
  snd (dispatch env i w) = snd (parse_active [DVariant (DBoolean b)] w).
Proof.
  intros (m & iface & pre & post & rest & -> & Hsig & Ha & Hpre).
  cbn [dispatch]. now rewrite (push_delivers env m iface b pre post rest).
Qed.


Lemma resume_dispatch env i w :
  is_resume_of DRM_MAJOR i ->
  sync_drm (wl w) = true ->
  active (snd (dispatch env i w)) = true.
Proof.
  intros (m & rest & -> & Hsig & Hargs) Hsync. cbn [dispatch].
  assert (Hm : m_member m = "ResumeDevice").
  { unfold dbus_message_is_signal in Hsig.
    destruct (m_type m); try discriminate.
    apply andb_prop in Hsig. destruct Hsig as [_ H].
    now apply String.eqb_eq in H. }
  assert (Hi : m_interface m = "org.freedesktop.login1.Session").
  { unfold dbus_message_is_signal in Hsig.
    destruct (m_type m); try discriminate.
    apply andb_prop in Hsig. destruct Hsig as [H _].
    now apply String.eqb_eq in H. }
  unfold filter_dbus. rewrite Hsig.
  unfold dbus_message_is_signal in *. destruct (m_type m); try discriminate.
  rewrite Hm, Hi. cbn -[device_resumed].
  destruct (device_resumed_spec m w) as (_ & _ & _ & Ha & _).
  rewrite (Ha DRM_MAJOR rest Hargs), Hsync. reflexivity.
Qed.




(** C2.  A PropertiesChanged push signal carrying Active=true, from any
    sender and on any object path, leaves the
    whole world as it is when synchronization is on, and sets the flag
    (notifying the compositor if it was clear) when synchronization is
    off.  With synchronization on, a resume notification for the DRM major
    (226) sets the flag, and it is the only input that can turn a clear
    flag into a set one. *)
Theorem push_true_waits_for_resume :
  forall (env : environment) (w : world) (i : input),
    (is_push true i ->
     if sync_drm (wl w)
     then snd (dispatch env i w) = w
     else active (snd (dispatch env i w)) = true
          /\ trace (snd (dispatch env i w))
             = trace w
               ++ (if active w then []
                   else [ev_session_signal {| session_active := true |}]))
    /\ (sync_drm (wl w) = true -> is_resume_of DRM_MAJOR i ->
        active (snd (dispatch env i w)) = true)
    /\ (sync_drm (wl w) = true -> active w = false ->
        active (snd (dispatch env i w)) = true -> is_resume_of DRM_MAJOR i).
Proof.
  intros env w i. split; [|split].
  - intros H. rewrite (dispatch_push env true i w H), parse_active_run.
    cbn [delivered]. destruct (sync_drm (wl w)) eqn:S; cbn [negb orb snd];
      [reflexivity|].
    destruct (set_active_spec true w) as (Ha & Ht & _).
    rewrite Ha, Ht. split; [reflexivity|].
    destruct (active w); reflexivity.
  - intros S R. apply resume_dispatch; assumption.
  - apply (sound_dispatch env i w).
Qed.

Lemma push_true_waits_for_resume_witness :
  snd (dispatch plain_machine
         (bus_message (properties_changed [active_entry true] []))
         (boot true false)) = boot true false
  /\ active (snd (dispatch plain_machine
                    (bus_message (resume_device DRM_MAJOR 0 7))
                    (boot true false))) = true.
Proof.
  split.
  - apply (proj1 (push_true_waits_for_resume plain_machine (boot true false)
                    (bus_message (properties_changed [active_entry true] [])))).
    exists (properties_changed [active_entry true] []),
      "org.freedesktop.login1.Session", [], [], [DArray []].
    repeat split; reflexivity.
  - apply (proj1 (proj2 (push_true_waits_for_resume plain_machine
                           (boot true false)
                           (bus_message (resume_device DRM_MAJOR 0 7))))).
    + reflexivity.
    + exists (resume_device DRM_MAJOR 0 7), [DUInt32 0; DUnixFd 7].
      repeat split; reflexivity.
Defined.

(** ** Pending queries *)

Lemma consistent_at_most_one w :
  consistent w -> (List.length (outstanding (dbus w)) <= 1)%nat.
Proof.
  intros [H _]. rewrite H. destruct (pending_active (wl w)); cbn; lia.
Qed.

Lemma run_loop_consistent inputs :
  forall w, consistent w -> consistent (run_loop inputs w).
Proof.
  induction inputs as [|[env i] rest IH]; intros w H; [exact H|].
  cbn [run_loop]. destruct (halted w); [exact H|].
  apply IH. apply (sound_dispatch env i w). exact H.
Qed.

Lemma get_active_registers env w :
  consistent w ->
  query_registered env w = true ->
  let w' := snd (weston_logind_get_active env w) in
  let n := next_pending (dbus w) in
  pending_active (wl w') = Some n
  /\ outstanding (dbus w') = [n]
  /\ next_pending (dbus w') = S n
  /\ spath (wl w') = spath (wl w)
  /\ trace w' =
     trace w
     ++ [ev_message_new "Get";
         ev_message_append (active_query (spath (wl w)) []) query_args;
         ev_send_with_reply (active_query (spath (wl w)) query_args);
         ev_pending_set_notify n]
     ++ match pending_active (wl w) with
        | Some old => [ev_pending_cancel old; ev_pending_unref (Some old)]
        | None => []
        end.
Proof.
  intros Hc Hr w' n.
  pose proof (consistent_get_active env w Hc) as [Ho _]. fold w' in Ho.
  destruct (get_active_spec env w) as (Hw & Hd & Ht). fold w' n in Hw, Hd, Ht.
  rewrite Hr in Hw. rewrite Ho, Hw.
  cbn [pending_active set_pending_active slot spath].
  repeat split; [|exact (Ht Hr)].
  rewrite Hd. unfold query_registered in Hr. apply andb_prop in Hr.
  destruct Hr as [Hs _]. rewrite Hs. reflexivity.
Qed.

Lemma boot_consistent sync act : consistent (boot sync act).
Proof. split; [reflexivity|]. intros p []. Qed.

(** C5.  From a consistent state (the connection waits for exactly the
    query the session object remembers), every run of the event loop leaves
    at most one Active query pending, the remembered one.  An invocation of
    [weston_logind_get_active] that registers a new pending call leaves
    that call as the only one waited for, and a previously pending call is
    cancelled and released in the course of it.  Two registering
    invocations in succession leave exactly the second call outstanding,
    the first having been cancelled and released. *)
Theorem at_most_one_pending_query :
  forall w : world,
    consistent w ->
    (forall inputs,
        (List.length (outstanding (dbus (run_loop inputs w))) <= 1)%nat
        /\ outstanding (dbus (run_loop inputs w))
           = slot (pending_active (wl (run_loop inputs w))))
    /\ (forall env,
           query_registered env w = true ->
           outstanding (dbus (snd (weston_logind_get_active env w)))
             = [next_pending (dbus w)]
           /\ pending_active (wl (snd (weston_logind_get_active env w)))
              = Some (next_pending (dbus w))
           /\ forall old,
                pending_active (wl w) = Some old ->
                ~ In old (outstanding
                            (dbus (snd (weston_logind_get_active env w))))
                /\ exists tr,
                     trace (snd (weston_logind_get_active env w))
                     = trace w ++ tr
                       ++ [ev_pending_cancel old; ev_pending_unref (Some old)])
    /\ (forall env1 env2,
           query_registered env1 w = true ->
           query_registered env2 (snd (weston_logind_get_active env1 w))
             = true ->
           outstanding
             (dbus (snd (weston_logind_get_active env2
                           (snd (weston_logind_get_active env1 w)))))
             = [S (next_pending (dbus w))]
           /\ In (ev_pending_cancel (next_pending (dbus w)))
                 (trace (snd (weston_logind_get_active env2
                                (snd (weston_logind_get_active env1 w)))))
           /\ In (ev_pending_unref (Some (next_pending (dbus w))))
                 (trace (snd (weston_logind_get_active env2
                                (snd (weston_logind_get_active env1 w)))))).
Proof.
  intros w Hc. split; [|split].
  - intros inputs. pose proof (run_loop_consistent inputs w Hc) as H.
    split; [apply consistent_at_most_one, H|apply H].
  - intros env Hr.
    destruct (get_active_registers env w Hc Hr) as (Hp & Ho & _ & _ & Ht).
    split; [exact Ho|]. split; [exact Hp|].
    intros old Hold. rewrite Ho, Ht, Hold. split.
    + intros [E|[]]. destruct Hc as [Hs Hf].
      assert (old < next_pending (dbus w))%nat
        by (apply Hf; rewrite Hs, Hold; now left).
      lia.
    + eexists. reflexivity.
  - intros env1 env2 H1 H2.
    destruct (get_active_registers env1 w Hc H1) as (Hp1 & _ & Hn1 & _ & _).
    pose proof (consistent_get_active env1 w Hc) as Hc1.
    destruct (get_active_registers env2 _ Hc1 H2) as (_ & Ho2 & _ & _ & Ht2).
    rewrite Ho2, Ht2, Hn1, Hp1. split; [reflexivity|].
    split; apply in_or_app; right; apply in_or_app; right; cbn; auto.
Qed.

Lemma at_most_one_pending_query_witness :
  (List.length
     (outstanding
        (dbus (run_loop
                 [(plain_machine,
                   bus_message (properties_changed [] [DString "Active"]));
                  (plain_machine,
                   bus_message (properties_changed [] [DString "Active"]))]
                 (boot true true)))) <= 1)%nat.
Proof.
  apply (at_most_one_pending_query (boot true true)
           (boot_consistent true true)).
Defined.

Example two_queries_leave_the_second :
  let w := run_loop
             [(plain_machine,
               bus_message (properties_changed [] [DString "Active"]));
              (plain_machine,
               bus_message (properties_changed [] [DString "Active"]))]
             (boot true true) in
  outstanding (dbus w) = [1%nat]
  /\ pending_active (wl w) = Some 1%nat
  /\ filter (fun e => match e with
                      | ev_pending_cancel _ | ev_pending_unref _ => true
                      | _ => false
                      end) (trace w)
     = [ev_pending_cancel 0; ev_pending_unref (Some 0%nat)].
Proof. repeat split; reflexivity. Qed.
